(** * packer-builder-softlayer: the SoftLayer builder (builder/softlayer/builder.go)

    A shallow embedding of [Builder.Prepare], [Builder.Run] and
    [Builder.Cancel].  Everything the builder calls but does not define
    (configuration decoding, the template engine, the process environment,
    the clock, duration parsing, the step runner) is a field of [World], so
    that every statement below holds for whatever those collaborators do. *)

From Stdlib Require Import ZArith List Permutation Ascii.
From stdpp Require Import base gmap strings list pretty.
Import ListNotations.

Local Open Scope Z_scope.

(** ** Go values *)

(** Go's [error] interface, reduced to what the builder observes of an error
    value: its [Error()] text.  [errors_New] is [errors.New]. *)
Record error := errors_New { Error : string }.

(** A Go call that returns [(value, error)] and whose value is only used
    when the error is nil. *)
Inductive result (A : Type) :=
| Ok (a : A)
| Err (e : error).
Arguments Ok {A} a.
Arguments Err {A} e.

(** A Go call either returns or panics (failed type assertion, nil
    dereference). *)
Inductive outcome (A : Type) :=
| Returned (a : A)
| Panicked (msg : string).
Arguments Returned {A} a.
Arguments Panicked {A} msg.

Definition str_eq (a b : string) : bool := String.eqb a b.

(** ** The configuration *)

(** The image types. *)
Definition IMAGE_TYPE_FLEX : string := "flex".
Definition IMAGE_TYPE_STANDARD : string := "standard".

(** The unique ID for this builder. *)
Definition BuilderId : string := "packer.softlayer".

(** [packer.ConfigTemplate]: the builder only writes its [UserVars]. *)
Record ConfigTemplate := { UserVars : gmap string string }.

(** [struct config].  Of the embedded [common.PackerConfig] only
    [PackerUserVars] is read by the builder. *)
Record config := {
  PackerUserVars : gmap string string;
  Username : string;
  APIKey : string;
  DatacenterName : string;
  ImageName : string;
  ImageDescription : string;
  ImageType : string;
  BaseImageId : string;
  BaseOsCode : string;
  InstanceName : string;
  InstanceDomain : string;
  InstanceCpu : Z;
  InstanceMemory : Z;
  InstanceNetworkSpeed : Z;
  InstanceDiskCapacity : Z;
  SshPort : Z;
  SshUserName : string;
  SshPrivateKeyFile : string;
  RawSshTimeout : string;
  RawStateTimeout : string;
  SshTimeout : Z;
  StateTimeout : Z;
  tpl : option ConfigTemplate
}.

(** The zero value of [config]: what a fresh [Builder] holds. *)
Definition zero_config : config :=
  {| PackerUserVars := ∅; Username := ""; APIKey := ""; DatacenterName := "";
     ImageName := ""; ImageDescription := ""; ImageType := "";
     BaseImageId := ""; BaseOsCode := ""; InstanceName := "";
     InstanceDomain := ""; InstanceCpu := 0; InstanceMemory := 0;
     InstanceNetworkSpeed := 0; InstanceDiskCapacity := 0; SshPort := 0;
     SshUserName := ""; SshPrivateKeyFile := ""; RawSshTimeout := "";
     RawStateTimeout := ""; SshTimeout := 0; StateTimeout := 0;
     tpl := None |}.

(** [packer.MultiError] is a slice of errors; [packer.MultiErrorAppend] on a
    multi-error appends to it. *)
Definition MultiError := list error.

Definition MultiErrorAppend (errs : MultiError) (e : error) : MultiError :=
  errs ++ [e].

(** ** Raw input and the collaborators *)

(** One raw configuration value as Packer hands it over: a decoded JSON
    object. *)
Inductive RawValue :=
| RString (s : string)
| RInt (n : Z)
| RBool (b : bool)
| RVars (m : gmap string string).

Definition Raw := gmap string RawValue.

(** [mapstructure.Metadata]. *)
Record Metadata := { Keys : list string; Unused : list string }.

(** The step list of a run.  The two steps with construction-time parameters
    carry them; [sshAddress] and [sshConfig] are fixed functions. *)
Inductive Step :=
| stepCreateSshKey (PrivateKeyFile : string)
| stepCreateInstance
| stepWaitforInstance
| StepConnectSSH (SSHWaitTimeout : Z)
| StepProvision
| stepCaptureImage.

(** [multistep.BasicRunner]. *)
Record BasicRunner := { Steps : list Step }.

(** Opaque handles passed to [Run]. *)
Inductive Ui := ui_handle (n : N).
Inductive Hook := hook_handle (n : N).
Inductive Cache := cache_handle (n : N).

(** Modelled from the spec: the provider client (SoftlayerClient is declared
    in a file of the repository that is not under src/) is "constructed once
    from (username, API key)"; [New] returns a pointer, here a location of
    the heap of clients. *)
Record SoftlayerClient := { user : string; apiKey : string }.

Definition loc := positive.

Definition SoftlayerClient_New (h : gmap loc SoftlayerClient) (u k : string)
  : loc * gmap loc SoftlayerClient :=
  let l := fresh (dom h) in
  (l, <[l := {| user := u; apiKey := k |}]> h).

(** What a state bag can hold ([interface{}]): the values the builder puts
    and the shapes steps put. *)
Inductive Value :=
| VNil
| VConfig (c : config)
| VClient (p : loc)
| VHook (h : Hook)
| VUi (u : Ui)
| VError (e : error)
| VString (s : string)
| VBool (b : bool)
| VInt (n : Z).

(** Observable effects, in program order. *)
Inductive Event :=
| LogPrintln (s : string)
| FmtPrintln (s : string)
| RunnerCancel (r : BasicRunner).

(** The collaborators of the builder. *)
Record World := {
  (** [common.DecodeConfig(&target, raws...)]: the target after the call,
      and the metadata or the error. *)
  DecodeConfig : config -> list Raw -> config * result Metadata;
  (** [common.CheckUnusedConfig]: nil or a multi-error. *)
  CheckUnusedConfig : Metadata -> option MultiError;
  (** [packer.NewConfigTemplate()]. *)
  NewConfigTemplate : result ConfigTemplate;
  (** [ConfigTemplate.Process(s, nil)]: both return values are used. *)
  Process : ConfigTemplate -> string -> string * option error;
  (** [os.Getenv]. *)
  Getenv : string -> string;
  (** [time.Now().Unix()] at the time [Prepare] reads the clock. *)
  Now_Unix : Z;
  (** [time.ParseDuration]: both return values are used. *)
  ParseDuration : string -> Z * option error;
  (** [common.ScrubConfig]. *)
  ScrubConfig : config -> list string -> string;
  (** [MultiError.Error()]. *)
  MultiError_Error : MultiError -> string;
  (** The order in which this execution of [range templates] visits the
      map, as a seed that selects one of the permutations. *)
  range_seed : nat;
  (** [BasicRunner.Run(state)]: what the steps do to the heap of clients
      and to the state bag. *)
  BasicRunner_Run :
    BasicRunner -> gmap loc SoftlayerClient * gmap string Value ->
    gmap loc SoftlayerClient * gmap string Value
}.

(** [Builder]. *)
Record Builder := { cfg : config; runner : option BasicRunner }.

Definition with_cfg (self : Builder) (c : config) : Builder :=
  {| cfg := c; runner := runner self |}.

(** ** Prepare: defaults *)

(** [fmt.Sprintf("packer-softlayer-%s", n)] with [n] an [int64]: the verb
    [%s] does not apply to an integer, and fmt renders the operand as
    [%!s(int64=n)]. *)
Definition Sprintf_instance_name (n : Z) : string :=
  "packer-softlayer-" +:+ "%!s(int64=" +:+ pretty n +:+ ")".

Definition or_string (s d : string) : string := if str_eq s "" then d else s.
Definition or_int (n d : Z) : Z := if n =? 0 then d else n.

(** Lines 78-138: each field is replaced by its default when it holds the
    zero value of its type.  The assignments touch pairwise distinct
    fields, so they are written as one record. *)
Definition apply_defaults (w : World) (c : config) : config :=
  {| PackerUserVars := PackerUserVars c;
     Username := or_string (Username c) (Getenv w "SOFTLAYER_USER_NAME");
     APIKey := or_string (APIKey c) (Getenv w "SOFTLAYER_API_KEY");
     DatacenterName := or_string (DatacenterName c) "ams01";
     ImageName := ImageName c;
     ImageDescription :=
       or_string (ImageDescription c) "Instance snapshot. Generated by packer.io";
     ImageType := or_string (ImageType c) IMAGE_TYPE_FLEX;
     BaseImageId := BaseImageId c;
     BaseOsCode := BaseOsCode c;
     InstanceName :=
       or_string (InstanceName c) (Sprintf_instance_name (Now_Unix w));
     InstanceDomain := or_string (InstanceDomain c) "defaultdomain.com";
     InstanceCpu := or_int (InstanceCpu c) 1;
     InstanceMemory := or_int (InstanceMemory c) 1024;
     InstanceNetworkSpeed := or_int (InstanceNetworkSpeed c) 10;
     InstanceDiskCapacity := or_int (InstanceDiskCapacity c) 25;
     SshPort := or_int (SshPort c) 22;
     SshUserName := or_string (SshUserName c) "root";
     SshPrivateKeyFile := SshPrivateKeyFile c;
     RawSshTimeout := or_string (RawSshTimeout c) "5m";
     RawStateTimeout := or_string (RawStateTimeout c) "10m";
     SshTimeout := SshTimeout c;
     StateTimeout := StateTimeout c;
     tpl := tpl c |}.

(** ** Prepare: template expansion *)

(** The keys of the map [templates]; each stands for the pointer to one
    string field of the configuration. *)
Inductive template_key :=
| k_username | k_api_key | k_datacenter_name | k_base_image_id
| k_image_name | k_image_description | k_image_type | k_base_os_code
| k_instance_name | k_instance_domain | k_ssh_timeout
| k_instance_state_timeout | k_ssh_username | k_ssh_private_key_file.

Definition templates : list template_key :=
  [k_username; k_api_key; k_datacenter_name; k_base_image_id;
   k_image_name; k_image_description; k_image_type; k_base_os_code;
   k_instance_name; k_instance_domain; k_ssh_timeout;
   k_instance_state_timeout; k_ssh_username; k_ssh_private_key_file].

Definition key_name (k : template_key) : string :=
  match k with
  | k_username => "username"
  | k_api_key => "api_key"
  | k_datacenter_name => "datacenter_name"
  | k_base_image_id => "base_image_id"
  | k_image_name => "image_name"
  | k_image_description => "image_description"
  | k_image_type => "image_type"
  | k_base_os_code => "base_os_code"
  | k_instance_name => "instance_name"
  | k_instance_domain => "instance_domain"
  | k_ssh_timeout => "ssh_timeout"
  | k_instance_state_timeout => "instance_state_timeout"
  | k_ssh_username => "ssh_username"
  | k_ssh_private_key_file => "ssh_private_key_file"
  end.

(** Reading through the pointer stored under a key. *)
Definition deref (k : template_key) (c : config) : string :=
  match k with
  | k_username => Username c
  | k_api_key => APIKey c
  | k_datacenter_name => DatacenterName c
  | k_base_image_id => BaseImageId c
  | k_image_name => ImageName c
  | k_image_description => ImageDescription c
  | k_image_type => ImageType c
  | k_base_os_code => BaseOsCode c
  | k_instance_name => InstanceName c
  | k_instance_domain => InstanceDomain c
  | k_ssh_timeout => RawSshTimeout c
  | k_instance_state_timeout => RawStateTimeout c
  | k_ssh_username => SshUserName c
  | k_ssh_private_key_file => SshPrivateKeyFile c
  end.

Definition is_key (a b : template_key) : bool :=
  match a, b with
  | k_username, k_username | k_api_key, k_api_key
  | k_datacenter_name, k_datacenter_name | k_base_image_id, k_base_image_id
  | k_image_name, k_image_name | k_image_description, k_image_description
  | k_image_type, k_image_type | k_base_os_code, k_base_os_code
  | k_instance_name, k_instance_name | k_instance_domain, k_instance_domain
  | k_ssh_timeout, k_ssh_timeout
  | k_instance_state_timeout, k_instance_state_timeout
  | k_ssh_username, k_ssh_username
  | k_ssh_private_key_file, k_ssh_private_key_file => true
  | _, _ => false
  end.

(** Writing through the pointer stored under a key. *)
Definition assign (k : template_key) (s : string) (c : config) : config :=
  let upd k' old := if is_key k k' then s else old in
  {| PackerUserVars := PackerUserVars c;
     Username := upd k_username (Username c);
     APIKey := upd k_api_key (APIKey c);
     DatacenterName := upd k_datacenter_name (DatacenterName c);
     ImageName := upd k_image_name (ImageName c);
     ImageDescription := upd k_image_description (ImageDescription c);
     ImageType := upd k_image_type (ImageType c);
     BaseImageId := upd k_base_image_id (BaseImageId c);
     BaseOsCode := upd k_base_os_code (BaseOsCode c);
     InstanceName := upd k_instance_name (InstanceName c);
     InstanceDomain := upd k_instance_domain (InstanceDomain c);
     InstanceCpu := InstanceCpu c;
     InstanceMemory := InstanceMemory c;
     InstanceNetworkSpeed := InstanceNetworkSpeed c;
     InstanceDiskCapacity := InstanceDiskCapacity c;
     SshPort := SshPort c;
     SshUserName := upd k_ssh_username (SshUserName c);
     SshPrivateKeyFile := upd k_ssh_private_key_file (SshPrivateKeyFile c);
     RawSshTimeout := upd k_ssh_timeout (RawSshTimeout c);
     RawStateTimeout := upd k_instance_state_timeout (RawStateTimeout c);
     SshTimeout := SshTimeout c;
     StateTimeout := StateTimeout c;
     tpl := tpl c |}.

(** Go leaves the iteration order of a map unspecified.  [insert_at] and
    [shuffle] turn a seed into one ordering of the keys: every seed gives a
    permutation and every permutation comes from a seed ([shuffle_perm] and
    [shuffle_onto] below). *)
Fixpoint insert_at {A : Type} (i : nat) (x : A) (l : list A) : list A :=
  match i, l with
  | O, _ => x :: l
  | S _, [] => [x]
  | S j, y :: r => y :: insert_at j x r
  end.

Fixpoint shuffle {A : Type} (seed : nat) (l : list A) : list A :=
  match l with
  | [] => []
  | x :: r =>
      let n := S (length r) in
      insert_at (seed mod n) x (shuffle (seed / n) r)
  end.

Definition range_templates (w : World) : list template_key :=
  shuffle (range_seed w) templates.

(** [fmt.Errorf("Error processing %s: %s", n, err)]. *)
Definition Errorf_processing (n : string) (err : error) : error :=
  errors_New ("Error processing " +:+ n +:+ ": " +:+ Error err).

(** One iteration of the loop at lines 157-163. *)
Definition process_key (w : World) (t : ConfigTemplate)
    (st : config * MultiError) (n : template_key) : config * MultiError :=
  let '(c, errs) := st in
  let '(s, err) := Process w t (deref n c) in
  (assign n s c,
   match err with
   | Some e => MultiErrorAppend errs (Errorf_processing (key_name n) e)
   | None => errs
   end).

Definition process_templates (w : World) (t : ConfigTemplate)
    (order : list template_key) (st : config * MultiError)
  : config * MultiError :=
  fold_left (process_key w t) order st.

(** The configuration part of one iteration. *)
Definition expand_key (w : World) (t : ConfigTemplate) (c : config)
    (n : template_key) : config :=
  assign n (Process w t (deref n c)).1 c.

(** The loop with the keys taken in the order of the map literal. *)
Definition expand_all (w : World) (t : ConfigTemplate) (c : config) : config :=
  fold_left (expand_key w t) templates c.

(** ** Prepare: required settings and timeouts *)

Definition err_api_key : error :=
  errors_New "api_key or the SOFTLAYER_API_KEY environment variable must be specified".
Definition err_username : error :=
  errors_New "username or the SOFTLAYER_USER_NAME environment variable must be specified".
Definition err_image_name : error :=
  errors_New "image_name must be specified".
(** [fmt.Errorf("Unknown image_type '%s'. Must be ...", ImageType)]. *)
Definition err_image_type (t : string) : error :=
  errors_New ("Unknown image_type '" +:+ t +:+
              "'. Must be one of 'flex' (the default) or 'standard'.").
Definition err_base_missing : error :=
  errors_New "please specify base_image_id or base_os_code".
Definition err_base_both : error :=
  errors_New "please specify only one of base_image_id or base_os_code".
Definition err_private_key : error :=
  errors_New ("when using base_image_id, you must specify ssh_private_key_file " +:+
              "since automatic ssh key config for custom images isn't supported by SoftLayer API").

(** [if cond { errs = packer.MultiErrorAppend(errs, e) }]. *)
Definition append_if (cond : bool) (e : error) (errs : MultiError) : MultiError :=
  if cond then MultiErrorAppend errs e else errs.

(** Lines 166-200. *)
Definition check_required (c : config) (errs : MultiError) : MultiError :=
  let errs := append_if (str_eq (APIKey c) "") err_api_key errs in
  let errs := append_if (str_eq (Username c) "") err_username errs in
  let errs := append_if (str_eq (ImageName c) "") err_image_name errs in
  let errs :=
    append_if (negb (str_eq (ImageType c) IMAGE_TYPE_FLEX) &&
               negb (str_eq (ImageType c) IMAGE_TYPE_STANDARD))
              (err_image_type (ImageType c)) errs in
  let errs :=
    append_if (str_eq (BaseImageId c) "" && str_eq (BaseOsCode c) "")
              err_base_missing errs in
  let errs :=
    append_if (negb (str_eq (BaseImageId c) "") && negb (str_eq (BaseOsCode c) ""))
              err_base_both errs in
  append_if (negb (str_eq (BaseImageId c) "") && str_eq (SshPrivateKeyFile c) "")
            err_private_key errs.

Definition set_tpl (t : option ConfigTemplate) (c : config) : config :=
  {| PackerUserVars := PackerUserVars c; Username := Username c;
     APIKey := APIKey c; DatacenterName := DatacenterName c;
     ImageName := ImageName c; ImageDescription := ImageDescription c;
     ImageType := ImageType c; BaseImageId := BaseImageId c;
     BaseOsCode := BaseOsCode c; InstanceName := InstanceName c;
     InstanceDomain := InstanceDomain c; InstanceCpu := InstanceCpu c;
     InstanceMemory := InstanceMemory c;
     InstanceNetworkSpeed := InstanceNetworkSpeed c;
     InstanceDiskCapacity := InstanceDiskCapacity c; SshPort := SshPort c;
     SshUserName := SshUserName c; SshPrivateKeyFile := SshPrivateKeyFile c;
     RawSshTimeout := RawSshTimeout c; RawStateTimeout := RawStateTimeout c;
     SshTimeout := SshTimeout c; StateTimeout := StateTimeout c;
     tpl := t |}.

Definition set_timeouts (ssh state : Z) (c : config) : config :=
  {| PackerUserVars := PackerUserVars c; Username := Username c;
     APIKey := APIKey c; DatacenterName := DatacenterName c;
     ImageName := ImageName c; ImageDescription := ImageDescription c;
     ImageType := ImageType c; BaseImageId := BaseImageId c;
     BaseOsCode := BaseOsCode c; InstanceName := InstanceName c;
     InstanceDomain := InstanceDomain c; InstanceCpu := InstanceCpu c;
     InstanceMemory := InstanceMemory c;
     InstanceNetworkSpeed := InstanceNetworkSpeed c;
     InstanceDiskCapacity := InstanceDiskCapacity c; SshPort := SshPort c;
     SshUserName := SshUserName c; SshPrivateKeyFile := SshPrivateKeyFile c;
     RawSshTimeout := RawSshTimeout c; RawStateTimeout := RawStateTimeout c;
     SshTimeout := ssh; StateTimeout := state;
     tpl := tpl c |}.

(** [fmt.Errorf("Failed parsing ssh_timeout: %s", err)] and its sibling,
    whose text says state_timeout. *)
Definition Errorf_parsing (what : string) (err : error) : error :=
  errors_New ("Failed parsing " +:+ what +:+ ": " +:+ Error err).

Definition append_err (label : error -> error) (err : option error)
    (errs : MultiError) : MultiError :=
  match err with
  | Some e => MultiErrorAppend errs (label e)
  | None => errs
  end.

(** Lines 203-215: both durations are stored whether or not parsing
    failed. *)
Definition parse_timeouts (w : World) (st : config * MultiError)
  : config * MultiError :=
  let '(c, errs) := st in
  let '(sshTimeout, err) := ParseDuration w (RawSshTimeout c) in
  let errs := append_err (Errorf_parsing "ssh_timeout") err errs in
  let '(stateTimeout, err) := ParseDuration w (RawStateTimeout c) in
  let errs := append_err (Errorf_parsing "state_timeout") err errs in
  (set_timeouts sshTimeout stateTimeout c, errs).

(** ** Prepare *)

(** Lines 66-69: the errors for unknown keys, or a fresh empty multi-error. *)
Definition unused_errors (w : World) (metadata : Metadata) : MultiError :=
  match CheckUnusedConfig w metadata with
  | Some errs => errs
  | None => []
  end.

(** Lines 71-138: the template engine, given the user variables, is stored
    in the configuration, and the defaults are applied. *)
Definition defaulted (w : World) (c : config) : config :=
  let t := {| UserVars := PackerUserVars c |} in
  apply_defaults w (set_tpl (Some t) c).

(** Lines 71-163: after the defaults, every templated field is expanded in
    place. *)
Definition expand (w : World) (c : config) (errs : MultiError)
  : config * MultiError :=
  let t := {| UserVars := PackerUserVars c |} in
  process_templates w t (range_templates w) (defaulted w c, errs).

(** Everything [Prepare] does once decoding and the template engine have
    succeeded (lines 71-215): the configuration it leaves in the builder and
    the errors it has accumulated, starting from [errs]. *)
Definition resolve (w : World) (c : config) (errs : MultiError)
  : config * MultiError :=
  let '(c, errs) := expand w c errs in
  let errs := check_required c errs in
  parse_timeouts w (c, errs).

(** Lines 219-221. *)
Definition retErr_of (w : World) (errs : MultiError) : option error :=
  if (0 <? length errs)%nat
  then Some (errors_New (MultiError_Error w errs))
  else None.

(** [Prepare(raws...)]: the builder afterwards, what was logged, and the two
    return values [(parms, retErr)]. *)
Definition Prepare (w : World) (self : Builder) (raws : list Raw)
  : Builder * list Event * (option (list string) * option error) :=
  let '(c, decoded) := DecodeConfig w (cfg self) raws in
  match decoded with
  | Err err => (with_cfg self c, [], (None, Some err))
  | Ok metadata =>
      let errs := unused_errors w metadata in
      match NewConfigTemplate w with
      | Err err => (with_cfg self (set_tpl None c), [], (None, Some err))
      | Ok _ =>
          let '(c, errs) := resolve w c errs in
          (with_cfg self c,
           [LogPrintln (ScrubConfig w c [APIKey c; Username c])],
           (None, retErr_of w errs))
      end
  end.

(** The multi-error [errs] at the moment [Prepare] returns; an early return
    happens before anything is appended to it. *)
Definition accumulated (w : World) (self : Builder) (raws : list Raw)
  : MultiError :=
  let '(c, decoded) := DecodeConfig w (cfg self) raws in
  match decoded with
  | Err _ => []
  | Ok metadata =>
      match NewConfigTemplate w with
      | Err _ => unused_errors w metadata
      | Ok _ => (resolve w c (unused_errors w metadata)).2
      end
  end.

(** The second return value of [Prepare]. *)
Definition Prepare_retErr (w : World) (self : Builder) (raws : list Raw)
  : option error :=
  (Prepare w self raws).2.2.

(** The configuration [Prepare] leaves in the builder. *)
Definition Prepare_config (w : World) (self : Builder) (raws : list Raw)
  : config :=
  cfg (Prepare w self raws).1.1.

(** The errors of the two duration parses for a configuration. *)
Definition timeout_errors (w : World) (c : config) : MultiError :=
  append_err (Errorf_parsing "state_timeout")
    (ParseDuration w (RawStateTimeout c)).2
    (append_err (Errorf_parsing "ssh_timeout")
       (ParseDuration w (RawSshTimeout c)).2 []).

(** The configuration as the checks of lines 166-200 see it: after
    defaulting and template expansion. *)
Definition expanded (w : World) (c : config) : config := (expand w c []).1.

(** The errors [Prepare] itself appends to the multi-error for a decoded
    configuration [c]: expansion errors, failed checks, failed parses. *)
Definition produced (w : World) (c : config) : MultiError := (resolve w c []).2.

(** [e] when the condition holds, nothing otherwise. *)
Definition only_if (cond : bool) (e : error) : MultiError :=
  if cond then [e] else [].

(** The configuration decoded from the scenario
    [{api_key: "", username: "", image_name: "img1",
      base_os_code: "UBUNTU_LATEST"}]: every other field is zero. *)
Definition scenario_config : config :=
  assign k_image_name "img1" (assign k_base_os_code "UBUNTU_LATEST" zero_config).

(** What [Prepare] leaves in the builder for a decoded configuration. *)
Definition resolved (w : World) (c : config) : config :=
  set_timeouts (ParseDuration w (RawSshTimeout (expanded w c))).1
               (ParseDuration w (RawStateTimeout (expanded w c))).1
               (expanded w c).

(** The default that lines 78-138 give a templated field; the four fields
    without a default get the empty text, which changes nothing. *)
Definition default_text (w : World) (n : template_key) : string :=
  match n with
  | k_username => Getenv w "SOFTLAYER_USER_NAME"
  | k_api_key => Getenv w "SOFTLAYER_API_KEY"
  | k_datacenter_name => "ams01"
  | k_image_description => "Instance snapshot. Generated by packer.io"
  | k_image_type => IMAGE_TYPE_FLEX
  | k_instance_name => Sprintf_instance_name (Now_Unix w)
  | k_instance_domain => "defaultdomain.com"
  | k_ssh_timeout => "5m"
  | k_instance_state_timeout => "10m"
  | k_ssh_username => "root"
  | k_base_image_id | k_image_name | k_base_os_code
  | k_ssh_private_key_file => ""
  end.

(** The two environment variables read the same on both runs. *)
Definition same_environment (w1 w2 : World) : Prop :=
  Getenv w1 "SOFTLAYER_API_KEY" = Getenv w2 "SOFTLAYER_API_KEY" /\
  Getenv w1 "SOFTLAYER_USER_NAME" = Getenv w2 "SOFTLAYER_USER_NAME".

(** For the text each field holds after the defaults of the first run, the
    engine of the second run returns the text the engine of the first run
    returned.  Only the returned text matters, not the error. *)
Definition same_expansions (w1 w2 : World) (c0 : config) : Prop :=
  forall n,
    (Process w2 {| UserVars := PackerUserVars c0 |} (deref n (defaulted w1 c0))).1 =
    (Process w1 {| UserVars := PackerUserVars c0 |} (deref n (defaulted w1 c0))).1.

(** The parser of the second run returns, for the two expanded timeouts of
    the first run, the durations the parser of the first run returned. *)
Definition same_durations (w1 w2 : World) (c0 : config) : Prop :=
  (ParseDuration w2 (RawSshTimeout (expanded w1 c0))).1 =
    (ParseDuration w1 (RawSshTimeout (expanded w1 c0))).1 /\
  (ParseDuration w2 (RawStateTimeout (expanded w1 c0))).1 =
    (ParseDuration w1 (RawStateTimeout (expanded w1 c0))).1.

(** The engine returns every templated field of [c] as it is: a text that
    has been expanded holds no action any more. *)
Definition stable_expansions (w : World) (c : config) : Prop :=
  forall n,
    (Process w {| UserVars := PackerUserVars c |} (deref n c)).1 = deref n c.

(** What decoding the same input again, into the resolved configuration
    [c1], leaves in [c0']: a field the input gives is set to what the input
    gave the first time (its value in [c0]); any other field keeps its
    resolved value. *)
Definition decoded_over (c0 c1 c0' : config) : Prop :=
  PackerUserVars c0' = PackerUserVars c0 /\
  (forall n,
     deref n c0' = deref n c0 \/
     (deref n c0' = deref n c1 /\ deref n c1 <> "")) /\
  (InstanceCpu c0' = InstanceCpu c0 \/ InstanceCpu c0' = InstanceCpu c1) /\
  (InstanceMemory c0' = InstanceMemory c0 \/
   InstanceMemory c0' = InstanceMemory c1) /\
  (InstanceNetworkSpeed c0' = InstanceNetworkSpeed c0 \/
   InstanceNetworkSpeed c0' = InstanceNetworkSpeed c1) /\
  (InstanceDiskCapacity c0' = InstanceDiskCapacity c0 \/
   InstanceDiskCapacity c0' = InstanceDiskCapacity c1) /\
  (SshPort c0' = SshPort c0 \/ SshPort c0' = SshPort c1).

(** ** Run and Cancel *)

(** [Artifact], as the literal at lines 271-276 fills it. *)
Record Artifact := {
  imageName : string;
  imageId : string;
  datacenterName : string;
  client : loc
}.

(** [rawErr.(error)] and [v.(string)]: a type assertion panics when the
    dynamic type differs (or the interface is nil). *)
Definition assert_error (v : Value) : outcome error :=
  match v with
  | VError e => Returned e
  | _ => Panicked "interface conversion: interface is not error"
  end.

Definition assert_string (v : Value) : outcome string :=
  match v with
  | VString s => Returned s
  | _ => Panicked "interface conversion: interface is not string"
  end.

(** [state.Get(k)]: nil when the key is absent. *)
Definition Get (state : gmap string Value) (k : string) : Value :=
  default VNil (state !! k).

Definition build_steps (c : config) : list Step :=
  [stepCreateSshKey (SshPrivateKeyFile c); stepCreateInstance;
   stepWaitforInstance; StepConnectSSH (SshTimeout c); StepProvision;
   stepCaptureImage].

(** The client and the state bag as [Run] sets them up (lines 231-238). *)
Definition new_client (self : Builder) (h : gmap loc SoftlayerClient)
  : loc * gmap loc SoftlayerClient :=
  SoftlayerClient_New h (Username (cfg self)) (APIKey (cfg self)).

Definition initial_state (self : Builder) (p : loc) (ui : Ui) (hook : Hook)
  : gmap string Value :=
  <["ui" := VUi ui]> (<["hook" := VHook hook]> (<["client" := VClient p]>
    (<["config" := VConfig (cfg self)]> ∅))).

(** The heap and the state bag when the runner hands control back
    (line 258). *)
Definition after_steps (w : World) (self : Builder)
    (h : gmap loc SoftlayerClient) (ui : Ui) (hook : Hook)
  : gmap loc SoftlayerClient * gmap string Value :=
  let '(p, h) := new_client self h in
  BasicRunner_Run w {| Steps := build_steps (cfg self) |}
    (h, initial_state self p ui hook).

(** [Run(ui, hook, cache)]: the builder and the heap afterwards, what was
    logged, and either the two return values or a panic. *)
Definition Run (w : World) (self : Builder) (h : gmap loc SoftlayerClient)
    (ui : Ui) (hook : Hook) (cache : Cache)
  : Builder * gmap loc SoftlayerClient * list Event *
    outcome (option Artifact * option error) :=
  let '(p, h) := new_client self h in
  let state := initial_state self p ui hook in
  let r := {| Steps := build_steps (cfg self) |} in
  let self := {| cfg := cfg self; runner := Some r |} in
  let '(h, state) := BasicRunner_Run w r (h, state) in
  match state !! "error" with
  | Some rawErr =>
      match assert_error rawErr with
      | Returned e => (self, h, [], Returned (None, Some e))
      | Panicked msg => (self, h, [], Panicked msg)
      end
  | None =>
      match state !! "image_id" with
      | None =>
          (self, h, [LogPrintln "Failed to find image_id in state. Bug?"],
           Returned (None, None))
      | Some _ =>
          match assert_string (Get state "image_id") with
          | Returned id =>
              (self, h, [],
               Returned (Some {| imageName := ImageName (cfg self);
                                 imageId := id;
                                 datacenterName := DatacenterName (cfg self);
                                 client := p |}, None))
          | Panicked msg => (self, h, [], Panicked msg)
          end
      end
  end.

(** The two return values of [Run] (or the panic), and what it logged. *)
Definition Run_result (w : World) (self : Builder)
    (h : gmap loc SoftlayerClient) (ui : Ui) (hook : Hook) (cache : Cache)
  : outcome (option Artifact * option error) :=
  (Run w self h ui hook cache).2.

Definition Run_log (w : World) (self : Builder)
    (h : gmap loc SoftlayerClient) (ui : Ui) (hook : Hook) (cache : Cache)
  : list Event :=
  (Run w self h ui hook cache).1.2.

(** [self.runner.Cancel()]: a method call on a nil interface value is a nil
    dereference. *)
Definition runner_Cancel (r : option BasicRunner) : outcome (list Event) :=
  match r with
  | Some r => Returned [RunnerCancel r]
  | None => Panicked "invalid memory address or nil pointer dereference"
  end.

(** [Cancel()]: the builder afterwards and either the effects or a panic. *)
Definition Cancel (self : Builder) : Builder * outcome (list Event) :=
  match runner self with
  | Some _ =>
      match runner_Cancel (runner self) with
      | Returned evs =>
          (self,
           Returned ([LogPrintln "Cancelling the step runner..."] ++ evs ++
                     [FmtPrintln "Cancelling the builder"]))
      | Panicked msg => (self, Panicked msg)
      end
  | None => (self, Returned [FmtPrintln "Cancelling the builder"])
  end.

(** The errors one iteration of the loop at lines 157-163 appends for the
    key [n] when the configuration is [c]. *)
Definition key_errors (w : World) (t : ConfigTemplate) (c : config)
    (n : template_key) : MultiError :=
  append_err (Errorf_processing (key_name n)) (Process w t (deref n c)).2 [].

(** The builder [Run] leaves behind. *)
Definition Run_builder (w : World) (self : Builder)
    (h : gmap loc SoftlayerClient) (ui : Ui) (hook : Hook) (cache : Cache)
  : Builder :=
  (Run w self h ui hook cache).1.1.1.

(** ** A sample world

    One concrete choice of collaborators, used to run the builder on
    concrete inputs.  It follows the libraries on the inputs used below:
    decoding of flat objects of strings and integers, template strings that
    are literals or a single [user] action, durations written as digits and
    one unit, and a runner that executes the steps in list order and stops
    at the first halt. *)
Module Sample.

Definition newline : string := String (Ascii.ascii_of_nat 10) EmptyString.

(** Does the text contain the opening delimiter of a template action? *)
Fixpoint has_action (s : string) : bool :=
  match s with
  | String a ((String b _) as r) =>
      (Ascii.eqb a "{"%char && Ascii.eqb b "{"%char) || has_action r
  | _ => false
  end.

Definition user_open : string := "{{user `".
Definition user_close : string := "`}}".

(** [t.Process]: a literal is returned as it is; a text that is exactly
    one [user] action is looked up in the user variables; Process returns
    the empty string together with any error. *)
Definition process (t : ConfigTemplate) (s : string) : string * option error :=
  if negb (has_action s) then (s, None)
  else
    let n := String.length s in
    if String.prefix user_open s &&
       str_eq (String.substring (n - 3) 3 s) user_close && (11 <=? n)%nat
    then
      let name := String.substring 8 (n - 11) s in
      match UserVars t !! name with
      | Some v => (v, None)
      | None => ("", Some (errors_New ("uknown user var: " +:+ name)))
      end
    else ("", Some (errors_New "template: unsupported action")).

Definition digit_of (a : Ascii.ascii) : option Z :=
  let n := Z.of_nat (Ascii.nat_of_ascii a) in
  if (48 <=? n) && (n <=? 57) then Some (n - 48) else None.

(** Leading decimal digits and the rest of the text. *)
Fixpoint leading_int (acc : Z) (seen : bool) (s : string)
  : option Z * string :=
  match s with
  | String a r =>
      match digit_of a with
      | Some d => leading_int (10 * acc + d) true r
      | None => (if seen then Some acc else None, s)
      end
  | EmptyString => (if seen then Some acc else None, s)
  end.

Definition invalid_duration (s : string) : Z * option error :=
  (0, Some (errors_New ("time: invalid duration " +:+ s))).

(** [time.ParseDuration] on digits followed by one of s, m, h. *)
Definition parse_duration (s : string) : Z * option error :=
  if str_eq s "0" then (0, None)
  else
    match leading_int 0 false s with
    | (Some n, unit) =>
        let ns :=
          if str_eq unit "s" then Some 1000000000
          else if str_eq unit "m" then Some 60000000000
          else if str_eq unit "h" then Some 3600000000000
          else None in
        match ns with
        | Some k =>
            if n * k <? 2 ^ 63 then (n * k, None) else invalid_duration s
        | None => invalid_duration s
        end
    | (None, _) => invalid_duration s
    end.

Definition quote : string := String (Ascii.ascii_of_nat 34) EmptyString.

(** Weak decoding of one raw value into a string or an integer field. *)
Definition to_string (k : string) (v : RawValue) : result string :=
  match v with
  | RString s => Ok s
  | RInt n => Ok (pretty n)
  | RBool b => Ok (if b then "1" else "0")
  | RVars _ => Err (errors_New ("'" +:+ k +:+ "' expected type 'string'"))
  end.

Definition to_int (k : string) (v : RawValue) : result Z :=
  match v with
  | RInt n => Ok n
  | RBool b => Ok (if b then 1 else 0)
  | RString s =>
      match leading_int 0 false s with
      | (Some n, EmptyString) => Ok n
      | _ =>
          Err (errors_New ("cannot parse '" +:+ k +:+
                           "' as int: strconv.ParseInt: parsing " +:+
                           quote +:+ s +:+ quote +:+ ": invalid syntax"))
      end
  | RVars _ => Err (errors_New ("'" +:+ k +:+ "' expected type 'int'"))
  end.

Definition to_vars (k : string) (v : RawValue) : result (gmap string string) :=
  match v with
  | RVars m => Ok m
  | _ => Err (errors_New ("'" +:+ k +:+ "' expected a map"))
  end.

(** One field: a key that is present and converts overwrites the field; a
    key that does not convert leaves the field and yields an error; an
    absent key leaves the field alone. *)
Definition field {A : Type} (conv : string -> RawValue -> result A)
    (raw : gmap string RawValue) (k : string) (old : A) : A * list error :=
  match raw !! k with
  | Some v =>
      match conv k v with
      | Ok a => (a, [])
      | Err e => (old, [e])
      end
  | None => (old, [])
  end.

Definition known_keys : list string :=
  ["packer_user_variables"; "username"; "api_key"; "datacenter_name";
   "image_name"; "image_description"; "image_type"; "base_image_id";
   "base_os_code"; "instance_name"; "instance_domain"; "instance_cpu";
   "instance_memory"; "instance_network_speed"; "instance_disk_capacity";
   "ssh_port"; "ssh_username"; "ssh_private_key_file"; "ssh_timeout";
   "instance_state_timeout"].

Definition is_known (k : string) : bool := existsb (str_eq k) known_keys.

(** Decoding one raw object into the target: every field is tried, and the
    errors of the fields that do not convert are collected. *)
Definition decode_one (c : config) (raw : gmap string RawValue)
  : config * list error :=
  let vars := field to_vars raw "packer_user_variables" (PackerUserVars c) in
  let username := field to_string raw "username" (Username c) in
  let api_key := field to_string raw "api_key" (APIKey c) in
  let datacenter := field to_string raw "datacenter_name" (DatacenterName c) in
  let image_name := field to_string raw "image_name" (ImageName c) in
  let image_desc := field to_string raw "image_description" (ImageDescription c) in
  let image_type := field to_string raw "image_type" (ImageType c) in
  let base_image := field to_string raw "base_image_id" (BaseImageId c) in
  let base_os := field to_string raw "base_os_code" (BaseOsCode c) in
  let inst_name := field to_string raw "instance_name" (InstanceName c) in
  let inst_domain := field to_string raw "instance_domain" (InstanceDomain c) in
  let cpu := field to_int raw "instance_cpu" (InstanceCpu c) in
  let memory := field to_int raw "instance_memory" (InstanceMemory c) in
  let speed := field to_int raw "instance_network_speed" (InstanceNetworkSpeed c) in
  let disk := field to_int raw "instance_disk_capacity" (InstanceDiskCapacity c) in
  let port := field to_int raw "ssh_port" (SshPort c) in
  let ssh_user := field to_string raw "ssh_username" (SshUserName c) in
  let key_file := field to_string raw "ssh_private_key_file" (SshPrivateKeyFile c) in
  let ssh_timeout := field to_string raw "ssh_timeout" (RawSshTimeout c) in
  let state_timeout :=
    field to_string raw "instance_state_timeout" (RawStateTimeout c) in
  ({| PackerUserVars := vars.1; Username := username.1; APIKey := api_key.1;
      DatacenterName := datacenter.1; ImageName := image_name.1;
      ImageDescription := image_desc.1; ImageType := image_type.1;
      BaseImageId := base_image.1; BaseOsCode := base_os.1;
      InstanceName := inst_name.1; InstanceDomain := inst_domain.1;
      InstanceCpu := cpu.1; InstanceMemory := memory.1;
      InstanceNetworkSpeed := speed.1; InstanceDiskCapacity := disk.1;
      SshPort := port.1; SshUserName := ssh_user.1;
      SshPrivateKeyFile := key_file.1; RawSshTimeout := ssh_timeout.1;
      RawStateTimeout := state_timeout.1; SshTimeout := SshTimeout c;
      StateTimeout := StateTimeout c; tpl := tpl c |},
   vars.2 ++ username.2 ++ api_key.2 ++ datacenter.2 ++ image_name.2 ++
   image_desc.2 ++ image_type.2 ++ base_image.2 ++ base_os.2 ++
   inst_name.2 ++ inst_domain.2 ++ cpu.2 ++ memory.2 ++ speed.2 ++ disk.2 ++
   port.2 ++ ssh_user.2 ++ key_file.2 ++ ssh_timeout.2 ++ state_timeout.2).

(** The text of the decoder's combined error. *)
Definition decoding_error_text (errs : list error) : string :=
  pretty (length errs) +:+ " error(s) decoding:" +:+ newline +:+ newline +:+
  String.concat newline (map (fun e => "* " +:+ Error e) errs).

Definition keys_of (raw : gmap string RawValue) : list string :=
  (map_to_list raw).*1.

Fixpoint decode_config (c : config) (md : Metadata)
    (raws : list (gmap string RawValue)) : config * result Metadata :=
  match raws with
  | [] => (c, Ok md)
  | raw :: rest =>
      match decode_one c raw with
      | (c', []) =>
          let ks := keys_of raw in
          decode_config c'
            {| Keys := Keys md ++ filter (fun k => is_known k = true) ks;
               Unused := Unused md ++ filter (fun k => is_known k = false) ks |}
            rest
      | (c', errs) => (c', Err (errors_New (decoding_error_text errs)))
      end
  end.

Definition check_unused (md : Metadata) : option MultiError :=
  let errs :=
    map (fun k => errors_New ("Unknown configuration key: " +:+ k))
        (filter (fun k => negb (str_eq k "type") &&
                          negb (String.prefix "packer_" k) = true)
                (Unused md)) in
  match errs with
  | [] => None
  | _ => Some errs
  end.

Definition multi_error_text (errs : MultiError) : string :=
  pretty (length errs) +:+ " error(s) occurred:" +:+ newline +:+ newline +:+
  String.concat newline (map (fun e => "* " +:+ Error e) errs).

(** What a step of the sample run does: the action it reports. *)
Inductive StepAction := ActionContinue | ActionHalt.

(** The loop of the runner: steps in order, stop at the first halt. *)
Fixpoint run_steps
    (behave : Step -> gmap loc SoftlayerClient * gmap string Value ->
              gmap loc SoftlayerClient * gmap string Value * StepAction)
    (steps : list Step) (st : gmap loc SoftlayerClient * gmap string Value)
  : gmap loc SoftlayerClient * gmap string Value :=
  match steps with
  | [] => st
  | step :: rest =>
      match behave step st with
      | (st', ActionContinue) => run_steps behave rest st'
      | ((h, bag), ActionHalt) => (h, <["halted" := VBool true]> bag)
      end
  end.

(** Every step continues; the capture step records the image id. *)
Definition steps_succeed (step : Step)
    (st : gmap loc SoftlayerClient * gmap string Value)
  : gmap loc SoftlayerClient * gmap string Value * StepAction :=
  match step with
  | stepCaptureImage =>
      ((st.1, <["image_id" := VString "img-42"]> st.2), ActionContinue)
  | _ => (st, ActionContinue)
  end.

(** Instance creation fails: it records the error and halts. *)
Definition steps_fail (step : Step)
    (st : gmap loc SoftlayerClient * gmap string Value)
  : gmap loc SoftlayerClient * gmap string Value * StepAction :=
  match step with
  | stepCreateInstance =>
      ((st.1, <["error" := VError (errors_New "instance creation failed")]> st.2),
       ActionHalt)
  | stepCaptureImage =>
      ((st.1, <["image_id" := VString "img-42"]> st.2), ActionContinue)
  | _ => (st, ActionContinue)
  end.

(** The boot wait halts without an error (a cancelled run). *)
Definition steps_halt (step : Step)
    (st : gmap loc SoftlayerClient * gmap string Value)
  : gmap loc SoftlayerClient * gmap string Value * StepAction :=
  match step with
  | stepWaitforInstance => (st, ActionHalt)
  | stepCaptureImage =>
      ((st.1, <["image_id" := VString "img-42"]> st.2), ActionContinue)
  | _ => (st, ActionContinue)
  end.

Definition world (env : gmap string string) (now : Z) (seed : nat)
    (behave : Step -> gmap loc SoftlayerClient * gmap string Value ->
              gmap loc SoftlayerClient * gmap string Value * StepAction)
  : World :=
  {| DecodeConfig := fun c raws =>
       decode_config c {| Keys := []; Unused := [] |} raws;
     CheckUnusedConfig := check_unused;
     NewConfigTemplate := Ok {| UserVars := ∅ |};
     Process := process;
     Getenv := fun k => default "" (env !! k);
     Now_Unix := now;
     ParseDuration := parse_duration;
     ScrubConfig := fun c secrets => "<config>";
     MultiError_Error := multi_error_text;
     range_seed := seed;
     BasicRunner_Run := fun r st => run_steps behave (Steps r) st |}.

(** The scenario of the specification: credentials empty, environment
    unset. *)
Definition raw_no_credentials : gmap string RawValue :=
  <["api_key" := RString ""]> (<["username" := RString ""]>
    (<["image_name" := RString "img1"]>
       (<["base_os_code" := RString "UBUNTU_LATEST"]> ∅))).

Definition raw_valid : gmap string RawValue :=
  <["api_key" := RString "k"]> (<["username" := RString "u"]>
    (<["image_name" := RString "img1"]>
       (<["base_os_code" := RString "UBUNTU_LATEST"]> ∅))).

Definition fresh_builder : Builder := {| cfg := zero_config; runner := None |}.

Definition working : World := world ∅ 1000 7 steps_succeed.
Definition failing : World := world ∅ 1000 7 steps_fail.
Definition halting : World := world ∅ 1000 7 steps_halt.
(** The same collaborators a while later, the map visited in another
    order. *)
Definition later : World := world ∅ 5000 4321 steps_succeed.

Definition no_ui : Ui := ui_handle 0.
Definition no_hook : Hook := hook_handle 0.
Definition no_cache : Cache := cache_handle 0.

(** What decoding into a fresh builder yields in the sample world. *)
Definition decoded (raws : list (gmap string RawValue)) : config :=
  (decode_config zero_config {| Keys := []; Unused := [] |} raws).1.

Definition metadata_of (raws : list (gmap string RawValue)) : Metadata :=
  match (decode_config zero_config {| Keys := []; Unused := [] |} raws).2 with
  | Ok md => md
  | Err _ => {| Keys := []; Unused := [] |}
  end.

(** Neither a base image nor an OS code. *)
Definition raw_no_base : gmap string RawValue :=
  <["api_key" := RString "k"]> (<["username" := RString "u"]>
    (<["image_name" := RString "img1"]> ∅)).

(** A base image, an OS code as well, and no private key file. *)
Definition raw_both_bases : gmap string RawValue :=
  <["base_image_id" := RString "123"]> raw_valid.

(** The second scenario of the specification: a base image with its key
    file. *)
Definition raw_base_image : gmap string RawValue :=
  <["api_key" := RString "k"]> (<["username" := RString "u"]>
    (<["image_name" := RString "img1"]>
       (<["base_image_id" := RString "123"]>
          (<["ssh_private_key_file" := RString "/k.pem"]> ∅)))).

(** The image type given through a user variable. *)
Definition raw_templated_type : gmap string RawValue :=
  <["image_type" := RString "{{user `kind`}}"]>
    (<["packer_user_variables" := RVars {["kind" := "standard"]}]> raw_valid).

(** An image type outside the enumeration. *)
Definition raw_bad_type : gmap string RawValue :=
  <["image_type" := RString "bogus"]> raw_valid.

(** A CPU count that is not a number. *)
Definition raw_bad_cpu : gmap string RawValue :=
  <["instance_cpu" := RString "abc"]> raw_valid.

(** A timeout that is not a duration. *)
Definition raw_bad_timeout : gmap string RawValue :=
  <["ssh_timeout" := RString "soon"]> raw_no_credentials.

(** An explicit instance name. *)
Definition raw_named : gmap string RawValue :=
  <["instance_name" := RString "builder-1"]> raw_valid.

(** The heap and the state bag the sample runner leaves behind. *)
Definition final_heap (w : World) (self : Builder) : gmap loc SoftlayerClient :=
  (after_steps w self ∅ no_ui no_hook).1.

Definition final_state (w : World) (self : Builder) : gmap string Value :=
  (after_steps w self ∅ no_ui no_hook).2.

(** The builder after a successful [Prepare] of [raw_valid]. *)
Definition prepared : Builder :=
  (Prepare working fresh_builder [raw_valid]).1.1.

(** Steps that continue and put nothing in the bag. *)
Definition steps_idle (step : Step)
    (st : gmap loc SoftlayerClient * gmap string Value)
  : gmap loc SoftlayerClient * gmap string Value * StepAction :=
  (st, ActionContinue).

Definition idle : World := world ∅ 1000 7 steps_idle.

(** Both credentials in the environment. *)
Definition with_environment : World :=
  world (<["SOFTLAYER_API_KEY" := "env-key"]>
           (<["SOFTLAYER_USER_NAME" := "env-user"]> ∅))
        1000 7 steps_succeed.


(** The API key taken from a user variable that is not defined. *)
Definition raw_missing_var : gmap string RawValue :=
  <["api_key" := RString "{{user `nope`}}"]> raw_valid.

(** No credentials in the input at all. *)
Definition raw_env_credentials : gmap string RawValue :=
  <["image_name" := RString "img1"]>
    (<["base_os_code" := RString "UBUNTU_LATEST"]> ∅).

(** A step that records a text, not an error, under "error". *)
Definition steps_untyped (step : Step)
    (st : gmap loc SoftlayerClient * gmap string Value)
  : gmap loc SoftlayerClient * gmap string Value * StepAction :=
  match step with
  | stepCreateInstance => ((st.1, <["error" := VString "boom"]> st.2), ActionHalt)
  | _ => (st, ActionContinue)
  end.

Definition untyped : World := world ∅ 1000 7 steps_untyped.

(** What decoding into a configuration [c] yields in the sample world. *)
Definition decoded_into (c : config) (raws : list (gmap string RawValue))
  : config :=
  (decode_config c {| Keys := []; Unused := [] |} raws).1.

Definition metadata_into (c : config) (raws : list (gmap string RawValue))
  : Metadata :=
  match (decode_config c {| Keys := []; Unused := [] |} raws).2 with
  | Ok md => md
  | Err _ => {| Keys := []; Unused := [] |}
  end.

End Sample.


(** * Properties *)

Lemma str_eq_true a b : str_eq a b = true <-> a = b.
Proof. apply String.eqb_eq. Qed.

Lemma str_eq_false a b : str_eq a b = false <-> a <> b.
Proof. apply String.eqb_neq. Qed.

(** ** Fields read and written through the map of pointers *)

Lemma assign_deref n c : assign n (deref n c) c = c.
Proof. destruct n, c; reflexivity. Qed.

Lemma deref_assign_eq n s c : deref n (assign n s c) = s.
Proof. destruct n; reflexivity. Qed.

Lemma deref_assign_ne m n s c : m <> n -> deref m (assign n s c) = deref m c.
Proof. destruct m, n; intros H; try reflexivity; exfalso; apply H; reflexivity. Qed.

(** ** The two forms of default *)

Lemma or_string_idem s d : or_string (or_string s d) d = or_string s d.
Proof.
  unfold or_string. destruct (str_eq s "") eqn:Hs; [|rewrite Hs; reflexivity].
  destruct (str_eq d ""); reflexivity.
Qed.

Lemma or_int_idem n d : or_int (or_int n d) d = or_int n d.
Proof.
  unfold or_int. destruct (n =? 0) eqn:Hn; [|rewrite Hn; reflexivity].
  destruct (d =? 0); reflexivity.
Qed.

Lemma or_string_set s d : s <> "" -> or_string s d = s.
Proof. intros H. unfold or_string. apply str_eq_false in H. rewrite H. reflexivity. Qed.




(** ** The order of the template loop *)

Lemma insert_at_perm {A : Type} (i : nat) (x : A) (l : list A) :
  Permutation (insert_at i x l) (x :: l).
Proof.
  revert i. induction l as [|y r IH]; intros [|j]; simpl; try reflexivity.
  rewrite IH. apply perm_swap.
Qed.

Lemma shuffle_perm {A : Type} (seed : nat) (l : list A) :
  Permutation (shuffle seed l) l.
Proof.
  revert seed. induction l as [|x r IH]; intros seed; simpl; [reflexivity|].
  rewrite insert_at_perm. apply perm_skip, IH.
Qed.

Lemma range_templates_perm w : Permutation (range_templates w) templates.
Proof. apply shuffle_perm. Qed.

Lemma insert_at_app {A : Type} (l1 l2 : list A) (x : A) :
  insert_at (length l1) x (l1 ++ l2) = l1 ++ x :: l2.
Proof.
  induction l1 as [|y r IH]; simpl; [reflexivity|]. f_equal. exact IH.
Qed.

(** No order is left out: every permutation of the keys is the order of
    some seed. *)
Lemma shuffle_onto {A : Type} (l l' : list A) :
  Permutation l l' -> exists seed, shuffle seed l = l'.
Proof.
  revert l'. induction l as [|x r IH]; intros l' HP.
  - apply Permutation_nil in HP. subst l'. exists 0%nat. reflexivity.
  - assert (Hin : In x l') by (eapply Permutation_in; [exact HP|left; reflexivity]).
    apply in_split in Hin. destruct Hin as (l1 & l2 & ->).
    apply Permutation_cons_app_inv in HP.
    destruct (IH _ HP) as [seed Hseed].
    assert (Hlen : (length l1 < S (length r))%nat).
    { apply Permutation_length in HP. rewrite HP, length_app. lia. }
    exists (length l1 + seed * S (length r))%nat. cbn [shuffle].
    rewrite Nat.Div0.mod_add, Nat.mod_small by exact Hlen.
    rewrite Nat.div_add, Nat.div_small by (exact Hlen || discriminate).
    cbn [Nat.add]. rewrite Hseed. apply insert_at_app.
Qed.

Lemma process_key_cfg w t c errs n :
  (process_key w t (c, errs) n).1 = expand_key w t c n.
Proof.
  unfold process_key, expand_key. destruct (Process w t (deref n c)); reflexivity.
Qed.

Lemma process_templates_cfg w t order c errs :
  (process_templates w t order (c, errs)).1 = fold_left (expand_key w t) order c.
Proof.
  unfold process_templates. revert c errs.
  induction order as [|n r IH]; intros c errs; cbn [fold_left]; [reflexivity|].
  rewrite <- (process_key_cfg w t c errs n).
  destruct (process_key w t (c, errs) n) as [c' errs']. apply IH.
Qed.

(** The errors already accumulated are kept in front, untouched. *)
Lemma process_templates_errs w t order c errs :
  (process_templates w t order (c, errs)).2 =
  errs ++ (process_templates w t order (c, [])).2.
Proof.
  unfold process_templates. revert c errs.
  induction order as [|n r IH]; intros c errs; simpl.
  - symmetry. apply app_nil_r.
  - destruct (Process w t (deref n c)) as [s [e|]]; simpl.
    + rewrite IH. rewrite (IH _ (MultiErrorAppend [] _)).
      unfold MultiErrorAppend. simpl. rewrite <- app_assoc. reflexivity.
    + apply IH.
Qed.

(** Two iterations commute on the configuration: they write distinct
    fields, and each reads only the field it writes. *)
Lemma expand_key_comm w t c a b :
  expand_key w t (expand_key w t c a) b = expand_key w t (expand_key w t c b) a.
Proof. destruct c, a, b; reflexivity. Qed.

Lemma fold_expand_perm w t l1 l2 :
  Permutation l1 l2 ->
  forall c, fold_left (expand_key w t) l1 c = fold_left (expand_key w t) l2 c.
Proof.
  induction 1 as [|x l l' _ IH|x y l|l l' l'' _ IH1 _ IH2]; intros c; simpl.
  - reflexivity.
  - apply IH.
  - rewrite expand_key_comm. reflexivity.
  - rewrite IH1. apply IH2.
Qed.

(** Every templated field after the loop is the expansion of what it held
    before, whatever the order of the iteration. *)
Lemma process_templates_any_order w t c errs :
  (process_templates w t (range_templates w) (c, errs)).1 = expand_all w t c.
Proof.
  rewrite process_templates_cfg.
  apply fold_expand_perm, range_templates_perm.
Qed.

Lemma expand_all_deref w t c n :
  deref n (expand_all w t c) = (Process w t (deref n c)).1.
Proof. destruct n; reflexivity. Qed.

(** ** The accumulated errors *)

Lemma append_if_app cond e errs : append_if cond e errs = errs ++ only_if cond e.
Proof.
  unfold append_if, only_if, MultiErrorAppend.
  destruct cond; [reflexivity|]. symmetry. apply app_nil_r.
Qed.

Lemma check_required_app c errs :
  check_required c errs =
  errs ++
  only_if (str_eq (APIKey c) "") err_api_key ++
  only_if (str_eq (Username c) "") err_username ++
  only_if (str_eq (ImageName c) "") err_image_name ++
  only_if (negb (str_eq (ImageType c) IMAGE_TYPE_FLEX) &&
           negb (str_eq (ImageType c) IMAGE_TYPE_STANDARD))
          (err_image_type (ImageType c)) ++
  only_if (str_eq (BaseImageId c) "" && str_eq (BaseOsCode c) "")
          err_base_missing ++
  only_if (negb (str_eq (BaseImageId c) "") && negb (str_eq (BaseOsCode c) ""))
          err_base_both ++
  only_if (negb (str_eq (BaseImageId c) "") && str_eq (SshPrivateKeyFile c) "")
          err_private_key.
Proof.
  unfold check_required. rewrite !append_if_app, <- !app_assoc. reflexivity.
Qed.

Lemma append_err_app label err errs :
  append_err label err errs = errs ++ append_err label err [].
Proof.
  unfold append_err, MultiErrorAppend.
  destruct err; [reflexivity|]. symmetry. apply app_nil_r.
Qed.

Lemma parse_timeouts_eq w c errs :
  parse_timeouts w (c, errs) =
  (set_timeouts (ParseDuration w (RawSshTimeout c)).1
                (ParseDuration w (RawStateTimeout c)).1 c,
   errs ++ timeout_errors w c).
Proof.
  unfold parse_timeouts, timeout_errors.
  destruct (ParseDuration w (RawSshTimeout c)) as [d1 e1].
  destruct (ParseDuration w (RawStateTimeout c)) as [d2 e2]. simpl.
  f_equal.
  rewrite (append_err_app _ e2), (append_err_app _ e1).
  rewrite (append_err_app _ e2 (append_err _ e1 [])).
  rewrite <- app_assoc. reflexivity.
Qed.

Lemma expand_cfg w c errs : (expand w c errs).1 = expanded w c.
Proof.
  unfold expanded, expand. rewrite !process_templates_cfg. reflexivity.
Qed.

Lemma expand_errs w c errs : (expand w c errs).2 = errs ++ (expand w c []).2.
Proof. unfold expand. apply process_templates_errs. Qed.

(** What [resolve] returns, piece by piece. *)
Lemma resolve_eq w c errs :
  resolve w c errs =
  (set_timeouts (ParseDuration w (RawSshTimeout (expanded w c))).1
                (ParseDuration w (RawStateTimeout (expanded w c))).1
                (expanded w c),
   errs ++ (expand w c []).2 ++ check_required (expanded w c) [] ++
   timeout_errors w (expanded w c)).
Proof.
  unfold resolve.
  pose proof (expand_cfg w c errs) as Hc. pose proof (expand_errs w c errs) as He.
  destruct (expand w c errs) as [c' errs']. simpl in Hc, He. subst c' errs'.
  rewrite parse_timeouts_eq. f_equal.
  rewrite (check_required_app _ (errs ++ _)).
  rewrite (check_required_app _ []). simpl. rewrite <- !app_assoc. reflexivity.
Qed.

Lemma produced_eq w c :
  produced w c =
  (expand w c []).2 ++ check_required (expanded w c) [] ++
  timeout_errors w (expanded w c).
Proof. unfold produced. rewrite resolve_eq. reflexivity. Qed.

Lemma resolve_errs w c errs : (resolve w c errs).2 = errs ++ produced w c.
Proof. rewrite produced_eq, resolve_eq. reflexivity. Qed.

(** [Prepare] once decoding and the template engine have succeeded. *)
Lemma Prepare_resolved w self raws c md t :
  DecodeConfig w (cfg self) raws = (c, Ok md) ->
  NewConfigTemplate w = Ok t ->
  accumulated w self raws = unused_errors w md ++ produced w c /\
  Prepare_retErr w self raws = retErr_of w (accumulated w self raws) /\
  Prepare_config w self raws = (resolve w c (unused_errors w md)).1.
Proof.
  intros Hd Ht. unfold accumulated, Prepare_retErr, Prepare_config, Prepare.
  rewrite Hd, Ht. rewrite <- resolve_errs.
  destruct (resolve w c (unused_errors w md)) as [c' errs']. simpl. auto.
Qed.

(** The two early returns of [Prepare]: the error of the decoder, or of the
    template engine, is returned as it is, nothing is logged and nothing has
    been appended to the multi-error. *)
Lemma Prepare_decode_error w self raws c e :
  DecodeConfig w (cfg self) raws = (c, Err e) ->
  Prepare w self raws = (with_cfg self c, [], (None, Some e)) /\
  accumulated w self raws = [].
Proof. intros Hd. unfold Prepare, accumulated. rewrite Hd. auto. Qed.

Lemma Prepare_template_error w self raws c md e :
  DecodeConfig w (cfg self) raws = (c, Ok md) ->
  NewConfigTemplate w = Err e ->
  Prepare w self raws = (with_cfg self (set_tpl None c), [], (None, Some e)) /\
  accumulated w self raws = unused_errors w md.
Proof. intros Hd Ht. unfold Prepare, accumulated. rewrite Hd, Ht. auto. Qed.

Lemma retErr_of_nonempty w errs e :
  In e errs -> retErr_of w errs = Some (errors_New (MultiError_Error w errs)).
Proof. destruct errs; [intros []|reflexivity]. Qed.

(** Expansion errors and parse errors carry their own prefixes. *)
Lemma expand_errs_shape w c e :
  In e (expand w c []).2 ->
  exists n err, e = Errorf_processing (key_name n) err.
Proof.
  unfold expand.
  generalize (defaulted w c).
  generalize (range_templates w). generalize {| UserVars := PackerUserVars c |}.
  intros t order. unfold process_templates.
  assert (forall c0 errs,
    In e (fold_left (process_key w t) order (c0, errs)).2 ->
    In e errs \/ exists n err, e = Errorf_processing (key_name n) err) as H.
  { induction order as [|n r IH]; intros c0 errs; cbn [fold_left]; [auto|].
    unfold process_key at 2.
    destruct (Process w t (deref n c0)) as [s [err|]]; intros Hin.
    - apply IH in Hin. destruct Hin as [Hin|Hin]; [|auto].
      unfold MultiErrorAppend in Hin. apply in_app_iff in Hin.
      destruct Hin as [Hin|[<-|[]]]; eauto.
    - apply IH in Hin. exact Hin. }
  intros c0 Hin. apply H in Hin. destruct Hin as [[]|Hin]. exact Hin.
Qed.

Lemma timeout_errors_shape w c e :
  In e (timeout_errors w c) -> exists what err, e = Errorf_parsing what err.
Proof.
  unfold timeout_errors, append_err, MultiErrorAppend.
  destruct (ParseDuration w (RawSshTimeout c)).2,
           (ParseDuration w (RawStateTimeout c)).2; simpl;
    intuition (subst; eauto).
Qed.

(** An error whose text starts with neither prefix is produced only by the
    checks. *)
Lemma produced_by_checks w c e :
  (forall n err, e <> Errorf_processing n err) ->
  (forall what err, e <> Errorf_parsing what err) ->
  In e (produced w c) <-> In e (check_required (expanded w c) []).
Proof.
  intros Hp Ht. rewrite produced_eq, !in_app_iff. split; [|auto].
  intros [H|[H|H]]; [|exact H|].
  - apply expand_errs_shape in H. destruct H as (n & err & ->).
    exfalso. eapply Hp. reflexivity.
  - apply timeout_errors_shape in H. destruct H as (what & err & ->).
    exfalso. eapply Ht. reflexivity.
Qed.

Lemma in_only_if cond e e' : In e (only_if cond e') <-> cond = true /\ e = e'.
Proof.
  unfold only_if. destruct cond; simpl; intuition congruence.
Qed.

(** ** The checks of lines 166-200 *)

Ltac distinct_texts :=
  unfold err_api_key, err_username, err_image_name, err_image_type,
    err_base_missing, err_base_both, err_private_key, Errorf_processing,
    Errorf_parsing;
  simpl; discriminate.

Ltac split_checks :=
  rewrite check_required_app; cbn [app];
  rewrite !in_app_iff, !in_only_if, ?andb_true_iff, ?negb_true_iff,
    ?str_eq_true, ?str_eq_false;
  split;
  [ intros H;
    repeat match type of H with
           | _ \/ _ => destruct H as [H|H]
           end;
    try (exfalso; destruct H as [_ H]; revert H; distinct_texts);
    try (destruct H as [H _]; exact H)
  | intros H ].

Lemma in_checks_base_missing c :
  In err_base_missing (check_required c []) <->
  BaseImageId c = "" /\ BaseOsCode c = "".
Proof. split_checks. do 4 right. left. auto. Qed.

Lemma in_checks_base_both c :
  In err_base_both (check_required c []) <->
  BaseImageId c <> "" /\ BaseOsCode c <> "".
Proof. split_checks. do 5 right. left. auto. Qed.

Lemma in_checks_private_key c :
  In err_private_key (check_required c []) <->
  BaseImageId c <> "" /\ SshPrivateKeyFile c = "".
Proof. split_checks. do 6 right. auto. Qed.

(** ** Prepare: base image and OS code *)

(** C4.  Let [c] be the configuration after defaulting and template
    expansion.  If base_image_id and base_os_code are both empty, the
    accumulated errors contain the "please specify base_image_id or
    base_os_code" error and [Prepare] returns an error; if both are set,
    they contain the "please specify only one" error and [Prepare] returns
    an error; if exactly one is set, [Prepare] produces neither. *)
Theorem Prepare_base_image_xor_os_code w self raws c0 md t :
  DecodeConfig w (cfg self) raws = (c0, Ok md) ->
  NewConfigTemplate w = Ok t ->
  accumulated w self raws = unused_errors w md ++ produced w c0 /\
  (BaseImageId (expanded w c0) = "" /\ BaseOsCode (expanded w c0) = "" ->
   In err_base_missing (produced w c0) /\
   Prepare_retErr w self raws =
     Some (errors_New (MultiError_Error w (accumulated w self raws)))) /\
  (BaseImageId (expanded w c0) <> "" /\ BaseOsCode (expanded w c0) <> "" ->
   In err_base_both (produced w c0) /\
   Prepare_retErr w self raws =
     Some (errors_New (MultiError_Error w (accumulated w self raws)))) /\
  ((BaseImageId (expanded w c0) = "" /\ BaseOsCode (expanded w c0) <> "") \/
   (BaseImageId (expanded w c0) <> "" /\ BaseOsCode (expanded w c0) = "") ->
   ~ In err_base_missing (produced w c0) /\
   ~ In err_base_both (produced w c0)).
Proof.
  intros Hd Ht.
  destruct (Prepare_resolved w self raws c0 md t Hd Ht) as (Hacc & Hret & _).
  assert (Hm : In err_base_missing (produced w c0) <->
               BaseImageId (expanded w c0) = "" /\ BaseOsCode (expanded w c0) = "").
  { rewrite produced_by_checks; [apply in_checks_base_missing| |];
      intros; distinct_texts. }
  assert (Hb : In err_base_both (produced w c0) <->
               BaseImageId (expanded w c0) <> "" /\ BaseOsCode (expanded w c0) <> "").
  { rewrite produced_by_checks; [apply in_checks_base_both| |];
      intros; distinct_texts. }
  split; [exact Hacc|]. split; [|split].
  - intros H. apply Hm in H. split; [exact H|].
    rewrite Hret. eapply retErr_of_nonempty.
    rewrite Hacc. apply in_app_iff. right. exact H.
  - intros H. apply Hb in H. split; [exact H|].
    rewrite Hret. eapply retErr_of_nonempty.
    rewrite Hacc. apply in_app_iff. right. exact H.
  - intros Hx. rewrite Hm, Hb. split; intros [H1 H2]; tauto.
Qed.

Lemma Prepare_base_image_xor_os_code_witness :
  In err_base_missing (produced Sample.working (Sample.decoded [Sample.raw_no_base])) /\
  In err_base_both (produced Sample.working (Sample.decoded [Sample.raw_both_bases])) /\
  ~ In err_base_missing (produced Sample.working (Sample.decoded [Sample.raw_valid])).
Proof.
  split; [|split].
  - refine (proj1 (proj1 (proj2 (Prepare_base_image_xor_os_code Sample.working
      Sample.fresh_builder [Sample.raw_no_base] (Sample.decoded [Sample.raw_no_base])
      (Sample.metadata_of [Sample.raw_no_base]) {| UserVars := ∅ |} _ _)) _)).
    + vm_compute. reflexivity.
    + reflexivity.
    + vm_compute. split; reflexivity.
  - refine (proj1 (proj1 (proj2 (proj2 (Prepare_base_image_xor_os_code Sample.working
      Sample.fresh_builder [Sample.raw_both_bases]
      (Sample.decoded [Sample.raw_both_bases])
      (Sample.metadata_of [Sample.raw_both_bases]) {| UserVars := ∅ |} _ _))) _)).
    + vm_compute. reflexivity.
    + reflexivity.
    + vm_compute. split; discriminate.
  - refine (proj1 (proj2 (proj2 (proj2 (Prepare_base_image_xor_os_code Sample.working
      Sample.fresh_builder [Sample.raw_valid] (Sample.decoded [Sample.raw_valid])
      (Sample.metadata_of [Sample.raw_valid]) {| UserVars := ∅ |} _ _))) _)).
    + vm_compute. reflexivity.
    + reflexivity.
    + vm_compute. left. split; [reflexivity|discriminate].
Defined.

(** C5.  Let [c] be the configuration after defaulting and template
    expansion.  [Prepare] produces the private-key-file error exactly when
    base_image_id is set and ssh_private_key_file is empty, and then it
    returns an error; with a private key file set it never produces that
    error. *)
Theorem Prepare_private_key_file w self raws c0 md t :
  DecodeConfig w (cfg self) raws = (c0, Ok md) ->
  NewConfigTemplate w = Ok t ->
  accumulated w self raws = unused_errors w md ++ produced w c0 /\
  (In err_private_key (produced w c0) <->
   BaseImageId (expanded w c0) <> "" /\ SshPrivateKeyFile (expanded w c0) = "") /\
  (In err_private_key (produced w c0) ->
   Prepare_retErr w self raws =
     Some (errors_New (MultiError_Error w (accumulated w self raws)))) /\
  (SshPrivateKeyFile (expanded w c0) <> "" -> ~ In err_private_key (produced w c0)).
Proof.
  intros Hd Ht.
  destruct (Prepare_resolved w self raws c0 md t Hd Ht) as (Hacc & Hret & _).
  assert (Hk : In err_private_key (produced w c0) <->
               BaseImageId (expanded w c0) <> "" /\
               SshPrivateKeyFile (expanded w c0) = "").
  { rewrite produced_by_checks; [apply in_checks_private_key| |];
      intros; distinct_texts. }
  split; [exact Hacc|]. split; [exact Hk|]. split.
  - intros H. rewrite Hret. eapply retErr_of_nonempty.
    rewrite Hacc. apply in_app_iff. right. exact H.
  - intros Hset. rewrite Hk. tauto.
Qed.

Lemma Prepare_private_key_file_witness :
  In err_private_key (produced Sample.working (Sample.decoded [Sample.raw_both_bases])) /\
  ~ In err_private_key (produced Sample.working (Sample.decoded [Sample.raw_base_image])).
Proof.
  split.
  - refine (proj2 (proj1 (proj2 (Prepare_private_key_file Sample.working
      Sample.fresh_builder [Sample.raw_both_bases]
      (Sample.decoded [Sample.raw_both_bases])
      (Sample.metadata_of [Sample.raw_both_bases]) {| UserVars := ∅ |} _ _))) _).
    + vm_compute. reflexivity.
    + reflexivity.
    + vm_compute. split; [discriminate|reflexivity].
  - refine (proj2 (proj2 (proj2 (Prepare_private_key_file Sample.working
      Sample.fresh_builder [Sample.raw_base_image]
      (Sample.decoded [Sample.raw_base_image])
      (Sample.metadata_of [Sample.raw_base_image]) {| UserVars := ∅ |} _ _))) _).
    + vm_compute. reflexivity.
    + reflexivity.
    + vm_compute. discriminate.
Defined.


(** ** Prepare: the image type *)

Lemma expanded_eq w c :
  expanded w c = expand_all w {| UserVars := PackerUserVars c |} (defaulted w c).
Proof. unfold expanded, expand, defaulted. apply process_templates_any_order. Qed.

Lemma in_checks_image_type c t :
  In (err_image_type t) (check_required c []) ->
  ImageType c <> IMAGE_TYPE_FLEX /\ ImageType c <> IMAGE_TYPE_STANDARD.
Proof.
  rewrite check_required_app; cbn [app].
  rewrite !in_app_iff, !in_only_if, ?andb_true_iff, ?negb_true_iff,
    ?str_eq_true, ?str_eq_false.
  intros H.
  repeat match type of H with
         | _ \/ _ => destruct H as [H|H]
         end;
    try (exfalso; destruct H as [_ H]; revert H; distinct_texts).
  destruct H as [H _]. exact H.
Qed.

Lemma checks_image_type_in c :
  ImageType c <> IMAGE_TYPE_FLEX -> ImageType c <> IMAGE_TYPE_STANDARD ->
  In (err_image_type (ImageType c)) (check_required c []).
Proof.
  intros Hf Hs. rewrite check_required_app; cbn [app].
  rewrite !in_app_iff, !in_only_if, ?andb_true_iff, ?negb_true_iff,
    ?str_eq_true, ?str_eq_false.
  do 3 right. left. auto.
Qed.

Lemma checks_all_pass c :
  APIKey c <> "" -> Username c <> "" -> ImageName c <> "" ->
  ImageType c = IMAGE_TYPE_FLEX \/ ImageType c = IMAGE_TYPE_STANDARD ->
  (BaseImageId c = "" /\ BaseOsCode c <> "") \/
  (BaseImageId c <> "" /\ BaseOsCode c = "" /\ SshPrivateKeyFile c <> "") ->
  check_required c [] = [].
Proof.
  intros Ha Hu Hn Ht Hb. rewrite check_required_app; cbn [app].
  apply str_eq_false in Ha, Hu, Hn. rewrite Ha, Hu, Hn.
  assert (negb (str_eq (ImageType c) IMAGE_TYPE_FLEX) &&
          negb (str_eq (ImageType c) IMAGE_TYPE_STANDARD) = false) as ->.
  { destruct Ht as [-> | ->]; reflexivity. }
  destruct Hb as [[Hi Ho]|(Hi & Ho & Hk)].
  - apply str_eq_false in Ho. rewrite Hi, Ho. reflexivity.
  - apply str_eq_false in Hi, Hk. rewrite Hi, Ho, Hk. reflexivity.
Qed.

(** C6, as the code has it.  An empty image_type is defaulted to "flex"
    before expansion and validation.  The image type that is validated is
    the template expansion of the defaulted one: [Prepare] produces an
    image-type error exactly when that expansion is neither "flex" nor
    "standard", and then returns an error.  When it is one of the two, and
    there are no unknown keys, no expansion error, credentials, image name
    and base settings pass their checks and both durations parse, [Prepare]
    returns a nil error. *)
Theorem Prepare_image_type w self raws c0 md t :
  DecodeConfig w (cfg self) raws = (c0, Ok md) ->
  NewConfigTemplate w = Ok t ->
  (ImageType c0 = "" -> ImageType (defaulted w c0) = IMAGE_TYPE_FLEX) /\
  (ImageType c0 <> "" -> ImageType (defaulted w c0) = ImageType c0) /\
  ImageType (expanded w c0) =
    (Process w {| UserVars := PackerUserVars c0 |} (ImageType (defaulted w c0))).1 /\
  ((exists txt, In (err_image_type txt) (produced w c0)) <->
   ImageType (expanded w c0) <> IMAGE_TYPE_FLEX /\
   ImageType (expanded w c0) <> IMAGE_TYPE_STANDARD) /\
  ((exists txt, In (err_image_type txt) (produced w c0)) ->
   Prepare_retErr w self raws =
     Some (errors_New (MultiError_Error w (accumulated w self raws)))) /\
  (ImageType (expanded w c0) = IMAGE_TYPE_FLEX \/
   ImageType (expanded w c0) = IMAGE_TYPE_STANDARD ->
   unused_errors w md = [] -> (expand w c0 []).2 = [] ->
   APIKey (expanded w c0) <> "" -> Username (expanded w c0) <> "" ->
   ImageName (expanded w c0) <> "" ->
   (BaseImageId (expanded w c0) = "" /\ BaseOsCode (expanded w c0) <> "") \/
   (BaseImageId (expanded w c0) <> "" /\ BaseOsCode (expanded w c0) = "" /\
    SshPrivateKeyFile (expanded w c0) <> "") ->
   timeout_errors w (expanded w c0) = [] ->
   Prepare_retErr w self raws = None).
Proof.
  intros Hd Ht.
  destruct (Prepare_resolved w self raws c0 md t Hd Ht) as (Hacc & Hret & _).
  assert (Hiff : (exists txt, In (err_image_type txt) (produced w c0)) <->
                 ImageType (expanded w c0) <> IMAGE_TYPE_FLEX /\
                 ImageType (expanded w c0) <> IMAGE_TYPE_STANDARD).
  { split.
    - intros [txt H]. apply produced_by_checks in H;
        [|intros; distinct_texts|intros; distinct_texts].
      eapply in_checks_image_type, H.
    - intros [Hf Hs]. exists (ImageType (expanded w c0)).
      apply produced_by_checks; [intros; distinct_texts|intros; distinct_texts|].
      apply checks_image_type_in; assumption. }
  split; [|split; [|split; [|split; [|split]]]].
  - intros H. unfold defaulted. simpl. rewrite H. reflexivity.
  - intros H. unfold defaulted. simpl. unfold or_string.
    apply str_eq_false in H. rewrite H. reflexivity.
  - rewrite expanded_eq. apply (expand_all_deref _ _ _ k_image_type).
  - exact Hiff.
  - intros [txt H]. rewrite Hret. eapply retErr_of_nonempty.
    rewrite Hacc. apply in_app_iff. right. exact H.
  - intros Hty Hun Hex Ha Hu Hn Hb Htm.
    rewrite Hret, Hacc, Hun, produced_eq, Hex, Htm.
    rewrite checks_all_pass by assumption. reflexivity.
Qed.

Lemma Prepare_image_type_witness :
  (exists txt, In (err_image_type txt)
                  (produced Sample.working (Sample.decoded [Sample.raw_bad_type]))) /\
  Prepare_retErr Sample.working Sample.fresh_builder [Sample.raw_valid] = None.
Proof.
  split.
  - refine (proj2 (proj1 (proj2 (proj2 (proj2 (Prepare_image_type Sample.working
      Sample.fresh_builder [Sample.raw_bad_type]
      (Sample.decoded [Sample.raw_bad_type])
      (Sample.metadata_of [Sample.raw_bad_type]) {| UserVars := ∅ |} _ _))))) _).
    + vm_compute. reflexivity.
    + reflexivity.
    + vm_compute. split; discriminate.
  - refine (proj2 (proj2 (proj2 (proj2 (proj2 (Prepare_image_type Sample.working
      Sample.fresh_builder [Sample.raw_valid] (Sample.decoded [Sample.raw_valid])
      (Sample.metadata_of [Sample.raw_valid]) {| UserVars := ∅ |} _ _)))))
      _ _ _ _ _ _ _ _).
    + vm_compute. reflexivity.
    + reflexivity.
    + vm_compute. left. reflexivity.
    + vm_compute. reflexivity.
    + vm_compute. reflexivity.
    + vm_compute. discriminate.
    + vm_compute. discriminate.
    + vm_compute. discriminate.
    + vm_compute. left. split; [reflexivity|discriminate].
    + vm_compute. reflexivity.
Defined.

(** The image type after the defaults can be outside the enumeration while
    resolution succeeds without any image-type error: a template that
    expands to "standard". *)
Lemma image_type_checked_after_expansion :
  ~ ((exists txt, In (err_image_type txt)
        (accumulated Sample.working Sample.fresh_builder [Sample.raw_templated_type]))
     <->
     (ImageType (defaulted Sample.working (Sample.decoded [Sample.raw_templated_type]))
        <> IMAGE_TYPE_FLEX /\
      ImageType (defaulted Sample.working (Sample.decoded [Sample.raw_templated_type]))
        <> IMAGE_TYPE_STANDARD)).
Proof.
  intros [_ H].
  assert (Hacc : accumulated Sample.working Sample.fresh_builder
                   [Sample.raw_templated_type] = []) by (vm_compute; reflexivity).
  rewrite Hacc in H. destruct H as [txt []].
  vm_compute. split; discriminate.
Qed.

Example image_type_template_resolves :
  ImageType (defaulted Sample.working (Sample.decoded [Sample.raw_templated_type]))
    = "{{user `kind`}}" /\
  ImageType (Prepare_config Sample.working Sample.fresh_builder
               [Sample.raw_templated_type]) = "standard" /\
  Prepare_retErr Sample.working Sample.fresh_builder [Sample.raw_templated_type]
    = None.
Proof. vm_compute. repeat split. Qed.

(** ** Prepare: what the resolved configuration depends on *)

Lemma Prepare_config_eq w self raws :
  Prepare_config w self raws =
  match DecodeConfig w (cfg self) raws with
  | (c, Err _) => c
  | (c, Ok md) =>
      match NewConfigTemplate w with
      | Err _ => set_tpl None c
      | Ok _ =>
          set_timeouts (ParseDuration w (RawSshTimeout (expanded w c))).1
                       (ParseDuration w (RawStateTimeout (expanded w c))).1
                       (expanded w c)
      end
  end.
Proof.
  unfold Prepare_config, Prepare.
  destruct (DecodeConfig w (cfg self) raws) as [c [md|e]]; [|reflexivity].
  destruct (NewConfigTemplate w); [|reflexivity].
  rewrite resolve_eq. reflexivity.
Qed.

Lemma or_string_empty s : or_string s "" = s.
Proof.
  unfold or_string. destruct (str_eq s "") eqn:H; [|reflexivity].
  apply str_eq_true in H. symmetry. exact H.
Qed.

Lemma deref_defaulted w c n :
  deref n (defaulted w c) = or_string (deref n c) (default_text w n).
Proof.
  destruct n; unfold defaulted; simpl; rewrite ?or_string_empty; reflexivity.
Qed.

Lemma default_text_same w1 w2 n :
  same_environment w1 w2 -> n <> k_instance_name ->
  default_text w1 n = default_text w2 n.
Proof.
  intros [Ha Hu] Hn. destruct n; simpl; try reflexivity; try assumption.
  exfalso. apply Hn. reflexivity.
Qed.

Lemma deref_set_timeouts a b c n : deref n (set_timeouts a b c) = deref n c.
Proof. destruct n; reflexivity. Qed.

Lemma deref_expanded w c n :
  deref n (expanded w c) =
  (Process w {| UserVars := PackerUserVars c |} (deref n (defaulted w c))).1.
Proof. rewrite expanded_eq. apply expand_all_deref. Qed.

Lemma expanded_rest w c :
  PackerUserVars (expanded w c) = PackerUserVars c /\
  tpl (expanded w c) = Some {| UserVars := PackerUserVars c |} /\
  InstanceCpu (expanded w c) = or_int (InstanceCpu c) 1 /\
  InstanceMemory (expanded w c) = or_int (InstanceMemory c) 1024 /\
  InstanceNetworkSpeed (expanded w c) = or_int (InstanceNetworkSpeed c) 10 /\
  InstanceDiskCapacity (expanded w c) = or_int (InstanceDiskCapacity c) 25 /\
  SshPort (expanded w c) = or_int (SshPort c) 22.
Proof. rewrite expanded_eq. destruct c. repeat split; reflexivity. Qed.

(** Two configurations are equal when they agree on every templated field
    and on the nine other fields. *)
Lemma config_ext a b :
  (forall n, deref n a = deref n b) ->
  PackerUserVars a = PackerUserVars b -> tpl a = tpl b ->
  InstanceCpu a = InstanceCpu b -> InstanceMemory a = InstanceMemory b ->
  InstanceNetworkSpeed a = InstanceNetworkSpeed b ->
  InstanceDiskCapacity a = InstanceDiskCapacity b -> SshPort a = SshPort b ->
  SshTimeout a = SshTimeout b -> StateTimeout a = StateTimeout b ->
  a = b.
Proof.
  intros H.
  pose proof (H k_username). pose proof (H k_api_key).
  pose proof (H k_datacenter_name). pose proof (H k_base_image_id).
  pose proof (H k_image_name). pose proof (H k_image_description).
  pose proof (H k_image_type). pose proof (H k_base_os_code).
  pose proof (H k_instance_name). pose proof (H k_instance_domain).
  pose proof (H k_ssh_timeout). pose proof (H k_instance_state_timeout).
  pose proof (H k_ssh_username). pose proof (H k_ssh_private_key_file).
  clear H. destruct a, b. simpl in *. intros. subst. reflexivity.
Qed.

Lemma Prepare_config_resolved w self raws c md t :
  DecodeConfig w (cfg self) raws = (c, Ok md) ->
  NewConfigTemplate w = Ok t ->
  Prepare_config w self raws = resolved w c.
Proof. intros Hd Ht. rewrite Prepare_config_eq, Hd, Ht. reflexivity. Qed.

(** The second resolution, of [c'], against the first, of [c0]: when the
    fields other than the instance name are expanded and defaulted alike,
    the results agree up to the instance name. *)
Lemma resolved_agree w1 w2 c0 c' :
  PackerUserVars c' = PackerUserVars c0 ->
  (forall n, n <> k_instance_name ->
     (Process w2 {| UserVars := PackerUserVars c0 |} (deref n (defaulted w2 c'))).1 =
     (Process w1 {| UserVars := PackerUserVars c0 |} (deref n (defaulted w1 c0))).1) ->
  or_int (InstanceCpu c') 1 = or_int (InstanceCpu c0) 1 ->
  or_int (InstanceMemory c') 1024 = or_int (InstanceMemory c0) 1024 ->
  or_int (InstanceNetworkSpeed c') 10 = or_int (InstanceNetworkSpeed c0) 10 ->
  or_int (InstanceDiskCapacity c') 25 = or_int (InstanceDiskCapacity c0) 25 ->
  or_int (SshPort c') 22 = or_int (SshPort c0) 22 ->
  same_durations w1 w2 c0 ->
  forall s,
    assign k_instance_name s (resolved w2 c') =
    assign k_instance_name s (resolved w1 c0).
Proof.
  intros Hv Hf H1 H2 H3 H4 H5 [Hs Hst] s.
  assert (Hderef : forall n, n <> k_instance_name ->
            deref n (expanded w2 c') = deref n (expanded w1 c0)).
  { intros n Hn. rewrite !deref_expanded, Hv. apply Hf, Hn. }
  destruct (expanded_rest w1 c0) as (Ev1 & Et1 & Ea1 & Eb1 & Ec1 & Ed1 & Ee1).
  destruct (expanded_rest w2 c') as (Ev2 & Et2 & Ea2 & Eb2 & Ec2 & Ed2 & Ee2).
  assert (Hssh : RawSshTimeout (expanded w2 c') = RawSshTimeout (expanded w1 c0))
    by (apply (Hderef k_ssh_timeout); discriminate).
  assert (Hstate : RawStateTimeout (expanded w2 c') = RawStateTimeout (expanded w1 c0))
    by (apply (Hderef k_instance_state_timeout); discriminate).
  apply config_ext.
  - intros n. destruct n;
      try (rewrite !deref_assign_ne by discriminate;
           unfold resolved; rewrite !deref_set_timeouts;
           apply Hderef; discriminate).
    rewrite !deref_assign_eq. reflexivity.
  - unfold resolved. simpl. congruence.
  - unfold resolved. simpl. congruence.
  - unfold resolved. simpl. congruence.
  - unfold resolved. simpl. congruence.
  - unfold resolved. simpl. congruence.
  - unfold resolved. simpl. congruence.
  - unfold resolved. simpl. congruence.
  - unfold resolved. simpl. rewrite Hssh. exact Hs.
  - unfold resolved. simpl. rewrite Hstate. exact Hst.
Qed.

(** With the instance name expanded alike as well, the results are equal. *)
Lemma resolved_equal w1 w2 c0 c' :
  (forall s,
     assign k_instance_name s (resolved w2 c') =
     assign k_instance_name s (resolved w1 c0)) ->
  InstanceName (resolved w2 c') = InstanceName (resolved w1 c0) ->
  resolved w2 c' = resolved w1 c0.
Proof.
  intros Hs Hn.
  rewrite <- (assign_deref k_instance_name (resolved w2 c')).
  rewrite <- (assign_deref k_instance_name (resolved w1 c0)).
  cbn [deref]. rewrite Hn. apply Hs.
Qed.

Lemma InstanceName_resolved w c :
  InstanceName (resolved w c) =
  (Process w {| UserVars := PackerUserVars c |}
     (or_string (InstanceName c) (Sprintf_instance_name (Now_Unix w)))).1.
Proof.
  unfold resolved.
  change (InstanceName (set_timeouts ?a ?b ?x)) with (deref k_instance_name x).
  rewrite deref_expanded, deref_defaulted. reflexivity.
Qed.

(** C7, as the code has it.  Take a raw input that decodes, a fixed
    environment, and two runs of [Prepare] in which the template engine
    returns the same text for each field and the parser the same duration
    for each timeout.  Two runs from the same builder state give
    configurations that agree on everything but the instance name, and that
    are identical when the clock reads the same or an instance name was
    given.  A second run on the builder the first run left gives the
    configuration of the first run, even if the clock has moved, when the
    decoder sets a field to what the input gave or leaves its resolved
    value, no empty instance name is left, and the engine returns expanded
    texts as they are.  The default instance name is built from the
    clock. *)
Theorem Prepare_deterministic_up_to_clock w1 w2 self raws c0 md1 t1 t2 :
  DecodeConfig w1 (cfg self) raws = (c0, Ok md1) ->
  NewConfigTemplate w1 = Ok t1 ->
  NewConfigTemplate w2 = Ok t2 ->
  same_environment w1 w2 ->
  same_expansions w1 w2 c0 ->
  same_durations w1 w2 c0 ->
  (forall md2,
     DecodeConfig w2 (cfg self) raws = (c0, Ok md2) ->
     (forall s,
        assign k_instance_name s (Prepare_config w2 self raws) =
        assign k_instance_name s (Prepare_config w1 self raws)) /\
     (Now_Unix w1 = Now_Unix w2 \/ InstanceName c0 <> "" ->
      Prepare_config w2 self raws = Prepare_config w1 self raws)) /\
  (forall c0' md2,
     DecodeConfig w2 (Prepare_config w1 self raws) raws = (c0', Ok md2) ->
     decoded_over c0 (Prepare_config w1 self raws) c0' ->
     stable_expansions w2 (Prepare_config w1 self raws) ->
     (InstanceName c0' = "" -> Now_Unix w1 = Now_Unix w2) ->
     Prepare_config w2 (Prepare w1 self raws).1.1 raws =
     Prepare_config w1 self raws) /\
  (InstanceName c0 = "" ->
   InstanceName (Prepare_config w1 self raws) =
     (Process w1 {| UserVars := PackerUserVars c0 |}
        (Sprintf_instance_name (Now_Unix w1))).1).
Proof.
  intros Hd1 Ht1 Ht2 Henv Hexp Hdur.
  rewrite (Prepare_config_resolved w1 self raws c0 md1 t1 Hd1 Ht1).
  split; [|split].
  - intros md2 Hd2.
    rewrite (Prepare_config_resolved w2 self raws c0 md2 t2 Hd2 Ht2).
    assert (Hup : forall s,
              assign k_instance_name s (resolved w2 c0) =
              assign k_instance_name s (resolved w1 c0)).
    { apply resolved_agree; try reflexivity; [|exact Hdur].
      intros n Hn. rewrite !deref_defaulted.
      rewrite <- (default_text_same w1 w2 n Henv Hn).
      rewrite <- deref_defaulted. apply Hexp. }
    split; [exact Hup|].
    intros Hsame. apply resolved_equal; [exact Hup|].
    rewrite !InstanceName_resolved.
    assert (Hn : or_string (InstanceName c0) (Sprintf_instance_name (Now_Unix w2)) =
                 or_string (InstanceName c0) (Sprintf_instance_name (Now_Unix w1))).
    { destruct Hsame as [->|Hne]; [reflexivity|].
      rewrite !or_string_set by exact Hne. reflexivity. }
    rewrite Hn. pose proof (Hexp k_instance_name) as He.
    rewrite deref_defaulted in He. exact He.
  - intros c0' md2 Hd2 (Hv & Hf & Ha & Hb & Hc & Hd & He) Hstable Hname.
    assert (Hcfg : cfg (Prepare w1 self raws).1.1 = resolved w1 c0).
    { change (cfg (Prepare w1 self raws).1.1) with (Prepare_config w1 self raws).
      apply (Prepare_config_resolved w1 self raws c0 md1 t1 Hd1 Ht1). }
    assert (Hd2' : DecodeConfig w2 (cfg (Prepare w1 self raws).1.1) raws
                   = (c0', Ok md2)) by (rewrite Hcfg; exact Hd2).
    rewrite (Prepare_config_resolved w2 _ raws c0' md2 t2 Hd2' Ht2).
    destruct (expanded_rest w1 c0) as (Ev1 & Et1 & Ea1 & Eb1 & Ec1 & Ed1 & Ee1).
    assert (Hvars : PackerUserVars (resolved w1 c0) = PackerUserVars c0)
      by exact Ev1.
    assert (Hfield : forall n,
      (Process w2 {| UserVars := PackerUserVars c0 |} (deref n (defaulted w2 c0'))).1 =
      (Process w1 {| UserVars := PackerUserVars c0 |} (deref n (defaulted w1 c0))).1).
    { intros n. rewrite (deref_defaulted w2).
      assert (Hres : deref n (resolved w1 c0) =
        (Process w1 {| UserVars := PackerUserVars c0 |} (deref n (defaulted w1 c0))).1).
      { unfold resolved. rewrite deref_set_timeouts. apply deref_expanded. }
      destruct (Hf n) as [Hgiven|[Hkept Hfull]].
      - assert (Htext : or_string (deref n c0') (default_text w2 n) =
                        deref n (defaulted w1 c0)).
        { rewrite deref_defaulted, Hgiven.
          destruct (str_eq (deref n c0) "") eqn:Hempty.
          - apply str_eq_true in Hempty.
            assert (Hdef : default_text w2 n = default_text w1 n).
            { destruct n; try (symmetry; apply default_text_same;
                               [exact Henv|discriminate]).
              cbn [default_text]. rewrite Hname; [reflexivity|].
              cbn [deref] in Hgiven, Hempty. congruence. }
            rewrite Hdef. reflexivity.
          - apply str_eq_false in Hempty.
            rewrite !or_string_set by exact Hempty. reflexivity. }
        rewrite Htext. apply Hexp.
      - rewrite Hkept, or_string_set by exact Hfull.
        rewrite <- Hres. rewrite <- Hvars. apply Hstable. }
    assert (Hint : forall x' x1 x0 d,
              x1 = or_int x0 d -> x' = x0 \/ x' = x1 ->
              or_int x' d = or_int x0 d).
    { intros x' x1 x0 d -> [->| ->]; [reflexivity|apply or_int_idem]. }
    apply resolved_equal.
    + apply resolved_agree; try exact Hdur; try exact Hv.
      * intros n _. apply Hfield.
      * eapply Hint; [|exact Ha]. exact Ea1.
      * eapply Hint; [|exact Hb]. exact Eb1.
      * eapply Hint; [|exact Hc]. exact Ec1.
      * eapply Hint; [|exact Hd]. exact Ed1.
      * eapply Hint; [|exact He]. exact Ee1.
    + rewrite (InstanceName_resolved w1).
      pose proof (Hfield k_instance_name) as Hn.
      rewrite (deref_defaulted w1) in Hn. cbn [deref default_text] in Hn.
      rewrite <- Hn.
      unfold resolved.
      change (InstanceName (set_timeouts ?a ?b ?x)) with (deref k_instance_name x).
      rewrite deref_expanded, Hv. reflexivity.
  - intros Hname. rewrite InstanceName_resolved, Hname. reflexivity.
Qed.

Lemma Prepare_deterministic_up_to_clock_witness :
  Prepare_config Sample.later
    (Prepare Sample.working Sample.fresh_builder [Sample.raw_valid]).1.1
    [Sample.raw_valid] =
  Prepare_config Sample.working Sample.fresh_builder [Sample.raw_valid] /\
  Prepare_config Sample.later Sample.fresh_builder [Sample.raw_named] =
  Prepare_config Sample.working Sample.fresh_builder [Sample.raw_named].
Proof.
  split.
  - refine (proj1 (proj2 (Prepare_deterministic_up_to_clock Sample.working
      Sample.later Sample.fresh_builder [Sample.raw_valid]
      (Sample.decoded [Sample.raw_valid]) (Sample.metadata_of [Sample.raw_valid])
      {| UserVars := ∅ |} {| UserVars := ∅ |} _ _ _ _ _ _))
      (Sample.decoded_into
         (Prepare_config Sample.working Sample.fresh_builder [Sample.raw_valid])
         [Sample.raw_valid])
      (Sample.metadata_into
         (Prepare_config Sample.working Sample.fresh_builder [Sample.raw_valid])
         [Sample.raw_valid]) _ _ _ _).
    + vm_compute. reflexivity.
    + reflexivity.
    + reflexivity.
    + split; vm_compute; reflexivity.
    + intros n. reflexivity.
    + split; vm_compute; reflexivity.
    + vm_compute. reflexivity.
    + split; [vm_compute; reflexivity|]. split.
      * intros n. destruct n; vm_compute;
          first [left; reflexivity | right; split; [reflexivity|discriminate]].
      * vm_compute. repeat split; first [left; reflexivity | right; reflexivity].
    + intros n. destruct n; vm_compute; reflexivity.
    + intros H. vm_compute in H. discriminate H.
  - refine (proj2 (proj1 (Prepare_deterministic_up_to_clock Sample.working
      Sample.later Sample.fresh_builder [Sample.raw_named]
      (Sample.decoded [Sample.raw_named]) (Sample.metadata_of [Sample.raw_named])
      {| UserVars := ∅ |} {| UserVars := ∅ |} _ _ _ _ _ _)
      (Sample.metadata_of [Sample.raw_named]) _) _).
    + vm_compute. reflexivity.
    + reflexivity.
    + reflexivity.
    + split; vm_compute; reflexivity.
    + intros n. reflexivity.
    + split; vm_compute; reflexivity.
    + vm_compute. reflexivity.
    + right. vm_compute. discriminate.
Defined.

(** The same valid input resolved from the same builder state at two
    different times, with the same environment, the same expansions and the
    same durations, gives two different configurations: the default
    instance name carries the clock reading. *)
Lemma instance_name_follows_clock :
  same_environment Sample.working Sample.later /\
  same_expansions Sample.working Sample.later (Sample.decoded [Sample.raw_valid]) /\
  same_durations Sample.working Sample.later (Sample.decoded [Sample.raw_valid]) /\
  Prepare_retErr Sample.working Sample.fresh_builder [Sample.raw_valid] = None /\
  Prepare_retErr Sample.later Sample.fresh_builder [Sample.raw_valid] = None /\
  InstanceName (Prepare_config Sample.working Sample.fresh_builder [Sample.raw_valid])
    = "packer-softlayer-%!s(int64=1000)" /\
  InstanceName (Prepare_config Sample.later Sample.fresh_builder [Sample.raw_valid])
    = "packer-softlayer-%!s(int64=5000)" /\
  Prepare_config Sample.working Sample.fresh_builder [Sample.raw_valid] <>
  Prepare_config Sample.later Sample.fresh_builder [Sample.raw_valid].
Proof.
  split; [split; vm_compute; reflexivity|].
  split; [intros n; reflexivity|].
  split; [split; vm_compute; reflexivity|].
  do 4 (split; [vm_compute; reflexivity|]).
  intros H. apply (f_equal InstanceName) in H. vm_compute in H. discriminate H.
Qed.

(** ** Prepare: the scenario without credentials *)

(** Where no field holds a template action, the loop changes nothing. *)
Lemma process_templates_literal w t order c errs :
  (forall n, Process w t (deref n c) = (deref n c, None)) ->
  process_templates w t order (c, errs) = (c, errs).
Proof.
  intros Hlit. unfold process_templates.
  induction order as [|n r IH]; cbn [fold_left]; [reflexivity|].
  unfold process_key at 2. rewrite Hlit, assign_deref. exact IH.
Qed.

(** C8.  For the input [{api_key: "", username: "", image_name: "img1",
    base_os_code: "UBUNTU_LATEST"}] (decoded without unknown keys), with
    SOFTLAYER_API_KEY and SOFTLAYER_USER_NAME unset, no field holding a
    template action and the two default timeouts parsing, [Prepare] returns
    an error and has accumulated exactly two errors: the missing api_key
    and the missing username. *)
Theorem Prepare_missing_credentials w self raws md t d1 d2 :
  DecodeConfig w (cfg self) raws = (scenario_config, Ok md) ->
  CheckUnusedConfig w md = None ->
  NewConfigTemplate w = Ok t ->
  Getenv w "SOFTLAYER_API_KEY" = "" ->
  Getenv w "SOFTLAYER_USER_NAME" = "" ->
  (forall n, Process w {| UserVars := ∅ |} (deref n (defaulted w scenario_config)) =
             (deref n (defaulted w scenario_config), None)) ->
  ParseDuration w "5m" = (d1, None) ->
  ParseDuration w "10m" = (d2, None) ->
  accumulated w self raws = [err_api_key; err_username] /\
  Prepare_retErr w self raws =
    Some (errors_New (MultiError_Error w [err_api_key; err_username])).
Proof.
  intros Hd Hu Ht Hk Hn Hlit H5 H10.
  destruct (Prepare_resolved w self raws _ md t Hd Ht) as (Hacc & Hret & _).
  assert (Hex : expand w scenario_config [] = (defaulted w scenario_config, [])).
  { unfold expand. apply process_templates_literal. exact Hlit. }
  assert (Hp : produced w scenario_config = [err_api_key; err_username]).
  { rewrite produced_eq. unfold expanded. rewrite Hex.
    unfold timeout_errors, defaulted, scenario_config.
    cbn [fst snd apply_defaults set_tpl assign is_key zero_config
         RawSshTimeout RawStateTimeout or_string str_eq String.eqb].
    rewrite H5, H10. rewrite check_required_app.
    cbn [apply_defaults set_tpl assign is_key zero_config
         APIKey Username ImageName ImageType BaseImageId BaseOsCode
         SshPrivateKeyFile].
    rewrite Hk, Hn. reflexivity. }
  assert (Hall : accumulated w self raws = [err_api_key; err_username]).
  { rewrite Hacc, Hp. unfold unused_errors. rewrite Hu. reflexivity. }
  split; [exact Hall|]. rewrite Hret, Hall. reflexivity.
Qed.

Lemma Prepare_missing_credentials_witness :
  accumulated Sample.working Sample.fresh_builder [Sample.raw_no_credentials] =
    [err_api_key; err_username] /\
  Prepare_retErr Sample.working Sample.fresh_builder [Sample.raw_no_credentials] =
    Some (errors_New (MultiError_Error Sample.working [err_api_key; err_username])).
Proof.
  refine (Prepare_missing_credentials Sample.working Sample.fresh_builder
            [Sample.raw_no_credentials]
            (Sample.metadata_of [Sample.raw_no_credentials]) {| UserVars := ∅ |}
            300000000000 600000000000 _ _ _ _ _ _ _ _).
  - vm_compute. reflexivity.
  - vm_compute. reflexivity.
  - reflexivity.
  - vm_compute. reflexivity.
  - vm_compute. reflexivity.
  - intros n. destruct n; vm_compute; reflexivity.
  - vm_compute. reflexivity.
  - vm_compute. reflexivity.
Defined.

(** ** Prepare: one combined error *)

Lemma retErr_of_iff w errs : retErr_of w errs <> None <-> errs <> [].
Proof.
  destruct errs as [|e errs]; simpl; split; intros H; try discriminate;
    exfalso; apply H; reflexivity.
Qed.

(** C9, as the code has it.  Once the raw input has been decoded and the
    template engine created, [Prepare] never returns early: the errors for
    unknown keys, every failed expansion, every failed check and every
    failed duration parse are accumulated, in this order; [Prepare] returns
    a non-nil error exactly when that list is not empty, and that error is
    built from the whole list; a duration that does not parse adds its error
    to the list and the resolved configuration is stored in the builder all
    the same; with an empty list [Prepare] returns nil. *)
Theorem Prepare_aggregates_errors w self raws c0 md t :
  DecodeConfig w (cfg self) raws = (c0, Ok md) ->
  NewConfigTemplate w = Ok t ->
  accumulated w self raws =
    unused_errors w md ++ (expand w c0 []).2 ++
    check_required (expanded w c0) [] ++ timeout_errors w (expanded w c0) /\
  (Prepare_retErr w self raws <> None <-> accumulated w self raws <> []) /\
  (accumulated w self raws <> [] ->
   Prepare_retErr w self raws =
     Some (errors_New (MultiError_Error w (accumulated w self raws)))) /\
  (forall e, (ParseDuration w (RawSshTimeout (expanded w c0))).2 = Some e ->
     In (Errorf_parsing "ssh_timeout" e) (accumulated w self raws)) /\
  (forall e, (ParseDuration w (RawStateTimeout (expanded w c0))).2 = Some e ->
     In (Errorf_parsing "state_timeout" e) (accumulated w self raws)) /\
  (accumulated w self raws = [] -> Prepare_retErr w self raws = None) /\
  Prepare_config w self raws =
    set_timeouts (ParseDuration w (RawSshTimeout (expanded w c0))).1
                 (ParseDuration w (RawStateTimeout (expanded w c0))).1
                 (expanded w c0).
Proof.
  intros Hd Ht.
  destruct (Prepare_resolved w self raws c0 md t Hd Ht) as (Hacc & Hret & Hcfg).
  assert (Hall : accumulated w self raws =
    unused_errors w md ++ (expand w c0 []).2 ++
    check_required (expanded w c0) [] ++ timeout_errors w (expanded w c0)).
  { rewrite Hacc, produced_eq. reflexivity. }
  split; [exact Hall|]. split; [|split; [|split; [|split; [|split]]]].
  - rewrite Hret. apply retErr_of_iff.
  - intros Hne. rewrite Hret.
    destruct (accumulated w self raws) as [|e errs]; [congruence|].
    reflexivity.
  - intros e He. rewrite Hall, !in_app_iff. do 3 right.
    unfold timeout_errors. rewrite He.
    rewrite append_err_app, in_app_iff. left. left. reflexivity.
  - intros e He. rewrite Hall, !in_app_iff. do 3 right.
    unfold timeout_errors. rewrite He.
    rewrite append_err_app, in_app_iff. right. left. reflexivity.
  - intros Hnil. rewrite Hret, Hnil. reflexivity.
  - rewrite Hcfg, resolve_eq. reflexivity.
Qed.

Lemma Prepare_aggregates_errors_witness :
  accumulated Sample.working Sample.fresh_builder [Sample.raw_bad_timeout] =
    [err_api_key; err_username;
     Errorf_parsing "ssh_timeout" (errors_New "time: invalid duration soon")] /\
  In (Errorf_parsing "ssh_timeout" (errors_New "time: invalid duration soon"))
     (accumulated Sample.working Sample.fresh_builder [Sample.raw_bad_timeout]).
Proof.
  split; [vm_compute; reflexivity|].
  refine (proj1 (proj2 (proj2 (proj2 (Prepare_aggregates_errors Sample.working
    Sample.fresh_builder [Sample.raw_bad_timeout]
    (Sample.decoded [Sample.raw_bad_timeout])
    (Sample.metadata_of [Sample.raw_bad_timeout]) {| UserVars := ∅ |} _ _))))
    (errors_New "time: invalid duration soon") _).
  - vm_compute. reflexivity.
  - reflexivity.
  - vm_compute. reflexivity.
Defined.

(** A raw input that does not decode: [Prepare] returns the decoder's error
    at once, before its multi-error exists, so an error is returned although
    nothing was accumulated, and it is not a combined error. *)
Lemma decode_error_returned_alone :
  ~ (Prepare_retErr Sample.working Sample.fresh_builder [Sample.raw_bad_cpu] <> None
     <->
     accumulated Sample.working Sample.fresh_builder [Sample.raw_bad_cpu] <> []).
Proof.
  intros [H _].
  assert (Hacc : accumulated Sample.working Sample.fresh_builder
                   [Sample.raw_bad_cpu] = []) by (vm_compute; reflexivity).
  apply H; [|exact Hacc]. vm_compute. discriminate.
Qed.

(** The decoder has still decoded the other fields, and they are in the
    builder when [Prepare] returns its error. *)
Example decode_error_keeps_fields :
  APIKey (Prepare_config Sample.working Sample.fresh_builder [Sample.raw_bad_cpu])
    = "k" /\
  InstanceCpu (Prepare_config Sample.working Sample.fresh_builder
                 [Sample.raw_bad_cpu]) = 0 /\
  Prepare_retErr Sample.working Sample.fresh_builder [Sample.raw_bad_cpu] <>
    Some (errors_New (MultiError_Error Sample.working
            (accumulated Sample.working Sample.fresh_builder [Sample.raw_bad_cpu]))).
Proof. split; [|split]; [vm_compute; reflexivity ..|]. vm_compute. discriminate. Qed.

(** ** Run *)

Lemma Run_unfold w self h ui hook cache h' state :
  after_steps w self h ui hook = (h', state) ->
  Run w self h ui hook cache =
    let p := (new_client self h).1 in
    let self' := {| cfg := cfg self;
                    runner := Some {| Steps := build_steps (cfg self) |} |} in
    match state !! "error" with
    | Some rawErr =>
        match assert_error rawErr with
        | Returned e => (self', h', [], Returned (None, Some e))
        | Panicked msg => (self', h', [], Panicked msg)
        end
    | None =>
        match state !! "image_id" with
        | None =>
            (self', h', [LogPrintln "Failed to find image_id in state. Bug?"],
             Returned (None, None))
        | Some _ =>
            match assert_string (Get state "image_id") with
            | Returned id =>
                (self', h', [],
                 Returned (Some {| imageName := ImageName (cfg self);
                                   imageId := id;
                                   datacenterName := DatacenterName (cfg self);
                                   client := p |}, None))
            | Panicked msg => (self', h', [], Panicked msg)
            end
        end
    end.
Proof.
  unfold after_steps, Run. destruct (new_client self h) as [p h1]. simpl.
  intros ->. reflexivity.
Qed.

(** C1.  When the state bag holds an error value under the key "error" once
    the runner has returned, [Run] returns a nil artifact together with that
    very error, and it logs nothing; no artifact comes back. *)
Theorem Run_returns_step_error w self h ui hook cache h' state e :
  after_steps w self h ui hook = (h', state) ->
  state !! "error" = Some (VError e) ->
  Run_result w self h ui hook cache = Returned (None, Some e) /\
  Run_log w self h ui hook cache = [] /\
  forall a err, Run_result w self h ui hook cache <> Returned (Some a, err).
Proof.
  intros Hsteps Herr. unfold Run_result, Run_log.
  rewrite (Run_unfold _ _ _ _ _ _ _ _ Hsteps).
  cbv zeta. rewrite Herr. simpl. repeat split. intros a err. discriminate.
Qed.

Lemma Run_returns_step_error_witness :
  Run_result Sample.failing Sample.fresh_builder ∅ Sample.no_ui Sample.no_hook
    Sample.no_cache
    = Returned (None, Some (errors_New "instance creation failed")).
Proof.
  refine (proj1 (Run_returns_step_error Sample.failing Sample.fresh_builder ∅
                   Sample.no_ui Sample.no_hook Sample.no_cache
                   (Sample.final_heap Sample.failing Sample.fresh_builder)
                   (Sample.final_state Sample.failing Sample.fresh_builder)
                   (errors_New "instance creation failed") _ _)).
  - apply surjective_pairing.
  - vm_compute. reflexivity.
Defined.

(** Whatever is stored under "error", an artifact is never returned: a
    value that is not an error makes the type assertion panic. *)
Lemma Run_error_no_artifact w self h ui hook cache h' state v :
  after_steps w self h ui hook = (h', state) ->
  state !! "error" = Some v ->
  (forall a err, Run_result w self h ui hook cache <> Returned (Some a, err)) /\
  ((forall e, v <> VError e) ->
   exists msg, Run_result w self h ui hook cache = Panicked msg).
Proof.
  intros Hsteps Herr. unfold Run_result.
  rewrite (Run_unfold _ _ _ _ _ _ _ _ Hsteps).
  cbv zeta. rewrite Herr. split.
  - intros a err. destruct v; simpl; discriminate.
  - intros Hv. destruct v; simpl; eauto. exfalso. eapply Hv. reflexivity.
Qed.



Example Run_sample_artifact :
  Run_result Sample.working Sample.prepared ∅ Sample.no_ui Sample.no_hook
    Sample.no_cache =
    Returned (Some {| imageName := "img1"; imageId := "img-42";
                      datacenterName := "ams01"; client := 1%positive |}, None).
Proof. vm_compute. reflexivity. Qed.

(** The client handed to the artifact is the one the steps were given: it
    is freshly allocated, the state bag starts with its location under
    "client", and the location holds the credentials of the
    configuration. *)
Lemma new_client_shared self h ui hook :
  h !! (new_client self h).1 = None /\
  initial_state self (new_client self h).1 ui hook !! "client" =
    Some (VClient (new_client self h).1) /\
  (new_client self h).2 !! (new_client self h).1 =
    Some {| user := Username (cfg self); apiKey := APIKey (cfg self) |}.
Proof.
  unfold new_client, SoftlayerClient_New, initial_state. simpl.
  split; [|split].
  - apply not_elem_of_dom, is_fresh.
  - reflexivity.
  - apply lookup_insert_eq.
Qed.

(** C3.  With neither "error" nor "image_id" in the state bag, [Run] logs
    the anomaly and returns a nil artifact and a nil error. *)
Theorem Run_anomalous_completion w self h ui hook cache h' state :
  after_steps w self h ui hook = (h', state) ->
  state !! "error" = None ->
  state !! "image_id" = None ->
  Run_result w self h ui hook cache = Returned (None, None) /\
  Run_log w self h ui hook cache =
    [LogPrintln "Failed to find image_id in state. Bug?"].
Proof.
  intros Hsteps Herr Hid. unfold Run_result, Run_log.
  rewrite (Run_unfold _ _ _ _ _ _ _ _ Hsteps).
  cbv zeta. rewrite Herr, Hid. split; reflexivity.
Qed.

Lemma Run_anomalous_completion_witness :
  Run_result Sample.halting Sample.fresh_builder ∅ Sample.no_ui Sample.no_hook
    Sample.no_cache
    = Returned (None, None) /\
  Run_log Sample.halting Sample.fresh_builder ∅ Sample.no_ui Sample.no_hook
    Sample.no_cache
    = [LogPrintln "Failed to find image_id in state. Bug?"].
Proof.
  refine (Run_anomalous_completion Sample.halting Sample.fresh_builder ∅
            Sample.no_ui Sample.no_hook Sample.no_cache
            (Sample.final_heap Sample.halting Sample.fresh_builder)
            (Sample.final_state Sample.halting Sample.fresh_builder)
            _ _ _).
  - apply surjective_pairing.
  - vm_compute. reflexivity.
  - vm_compute. reflexivity.
Defined.

(** ** Cancel *)

(** C10.  [Cancel] on a builder whose runner is nil returns without a panic,
    having only printed its own message; in every case the builder is left
    as it was, [Cancel] does not panic, and the runner's Cancel is invoked
    exactly when there is a runner, on that runner. *)
Theorem Cancel_nil_runner_safe (self : Builder) :
  (runner self = None ->
   Cancel self = (self, Returned [FmtPrintln "Cancelling the builder"])) /\
  (Cancel self).1 = self /\
  (exists evs, (Cancel self).2 = Returned evs /\
     forall r, In (RunnerCancel r) evs <-> runner self = Some r).
Proof.
  unfold Cancel. destruct (runner self) as [r|] eqn:Hr; simpl.
  - split; [discriminate|]. split; [reflexivity|].
    eexists. split; [reflexivity|]. intros r'. simpl. split.
    + intros [H|[H|[H|[]]]]; try discriminate. congruence.
    + intros [= ->]. auto.
  - split; [reflexivity|]. split; [reflexivity|].
    eexists. split; [reflexivity|]. intros r'. simpl. split.
    + intros [H|[]]. discriminate.
    + discriminate.
Qed.

Lemma Cancel_nil_runner_safe_witness :
  Cancel Sample.prepared =
    (Sample.prepared, Returned [FmtPrintln "Cancelling the builder"]).
Proof.
  apply (proj1 (Cancel_nil_runner_safe Sample.prepared)).
  vm_compute. reflexivity.
Defined.

(** After [Run] the builder has a runner, and [Cancel] reaches it. *)
Example Cancel_after_Run :
  (Cancel (Run Sample.working Sample.prepared ∅ Sample.no_ui Sample.no_hook
               Sample.no_cache).1.1.1).2 =
    Returned [LogPrintln "Cancelling the step runner...";
              RunnerCancel {| Steps := build_steps (cfg Sample.prepared) |};
              FmtPrintln "Cancelling the builder"].
Proof. vm_compute. reflexivity. Qed.

(** * Further properties of the builder *)

(** ** Prepare: early returns, return values, log *)

(** X3.  [Prepare] never returns parameters (its first return value is
    always nil) and never touches the runner; it writes one log line when
    it gets past decoding and the creation of the template engine, and
    none when it returns early. *)
Theorem Prepare_parms_runner_log w self raws :
  (Prepare w self raws).2.1 = None /\
  runner (Prepare w self raws).1.1 = runner self /\
  ((Prepare w self raws).1.2 = [] \/
   exists line, (Prepare w self raws).1.2 = [LogPrintln line]) /\
  ((Prepare w self raws).1.2 = [] <->
   (exists e, (DecodeConfig w (cfg self) raws).2 = Err e) \/
   (exists e, NewConfigTemplate w = Err e)).
Proof.
  unfold Prepare.
  destruct (DecodeConfig w (cfg self) raws) as [c [md|e]]; simpl.
  - destruct (NewConfigTemplate w) as [t|e]; simpl.
    + destruct (resolve w c (unused_errors w md)) as [c' errs]. simpl.
      repeat split; eauto.
      * discriminate.
      * intros [[e He]|[e He]]; discriminate.
    + repeat split; eauto.
  - repeat split; eauto.
Qed.

(** ** Prepare: the checks *)

Lemma produced_fails w self raws c md t e :
  DecodeConfig w (cfg self) raws = (c, Ok md) ->
  NewConfigTemplate w = Ok t ->
  In e (produced w c) ->
  Prepare_retErr w self raws =
    Some (errors_New (MultiError_Error w (accumulated w self raws))).
Proof.
  intros Hd Ht Hin.
  destruct (Prepare_resolved w self raws c md t Hd Ht) as (Hacc & Hret & _).
  rewrite Hret. eapply retErr_of_nonempty.
  rewrite Hacc. apply in_app_iff. right. exact Hin.
Qed.

Lemma in_checks_api_key c :
  In err_api_key (check_required c []) <-> APIKey c = "".
Proof. split_checks. left. auto. Qed.

Lemma in_checks_username c :
  In err_username (check_required c []) <-> Username c = "".
Proof. split_checks. right. left. auto. Qed.

Lemma in_checks_image_name c :
  In err_image_name (check_required c []) <-> ImageName c = "".
Proof. split_checks. do 2 right. left. auto. Qed.

(** X4.  Let [c] be the configuration after defaulting and template
    expansion.  [Prepare] produces the api_key error exactly when the API
    key of [c] is empty, the username error exactly when its user name is
    empty, and the image_name error exactly when its image name is empty;
    each of them makes [Prepare] return the combined error. *)
Theorem Prepare_required_fields w self raws c0 md t :
  DecodeConfig w (cfg self) raws = (c0, Ok md) ->
  NewConfigTemplate w = Ok t ->
  (In err_api_key (produced w c0) <-> APIKey (expanded w c0) = "") /\
  (In err_username (produced w c0) <-> Username (expanded w c0) = "") /\
  (In err_image_name (produced w c0) <-> ImageName (expanded w c0) = "") /\
  (APIKey (expanded w c0) = "" \/ Username (expanded w c0) = "" \/
   ImageName (expanded w c0) = "" ->
   Prepare_retErr w self raws =
     Some (errors_New (MultiError_Error w (accumulated w self raws)))).
Proof.
  intros Hd Ht.
  assert (Ha : In err_api_key (produced w c0) <-> APIKey (expanded w c0) = "").
  { rewrite produced_by_checks; [apply in_checks_api_key| |];
      intros; distinct_texts. }
  assert (Hu : In err_username (produced w c0) <-> Username (expanded w c0) = "").
  { rewrite produced_by_checks; [apply in_checks_username| |];
      intros; distinct_texts. }
  assert (Hn : In err_image_name (produced w c0) <-> ImageName (expanded w c0) = "").
  { rewrite produced_by_checks; [apply in_checks_image_name| |];
      intros; distinct_texts. }
  split; [exact Ha|]. split; [exact Hu|]. split; [exact Hn|].
  intros [H|[H|H]].
  - eapply produced_fails; eauto. apply Ha, H.
  - eapply produced_fails; eauto. apply Hu, H.
  - eapply produced_fails; eauto. apply Hn, H.
Qed.

Lemma Prepare_required_fields_witness :
  In err_api_key
     (produced Sample.working (Sample.decoded [Sample.raw_no_credentials])) /\
  ~ In err_image_name
     (produced Sample.working (Sample.decoded [Sample.raw_no_credentials])).
Proof.
  destruct (Prepare_required_fields Sample.working Sample.fresh_builder
              [Sample.raw_no_credentials]
              (Sample.decoded [Sample.raw_no_credentials])
              (Sample.metadata_of [Sample.raw_no_credentials])
              {| UserVars := ∅ |}) as (Ha & _ & Hn & _).
  - vm_compute. reflexivity.
  - reflexivity.
  - split.
    + apply Ha. vm_compute. reflexivity.
    + intros H. destruct Hn as [Hn _]. specialize (Hn H).
      vm_compute in Hn. discriminate Hn.
Defined.






(** X6.  The three checks on the base settings exclude one another where
    the code makes them: the missing-base error never comes with the
    only-one error nor with the private-key-file error, and the checks
    append at most six errors. *)
Theorem Prepare_base_errors_exclusive w c0 :
  ~ (In err_base_missing (produced w c0) /\ In err_base_both (produced w c0)) /\
  ~ (In err_base_missing (produced w c0) /\ In err_private_key (produced w c0)) /\
  (length (check_required (expanded w c0) []) <= 6)%nat.
Proof.
  assert (Hm : In err_base_missing (produced w c0) ->
               BaseImageId (expanded w c0) = "").
  { intros H. apply produced_by_checks in H;
      [|intros; distinct_texts|intros; distinct_texts].
    apply in_checks_base_missing in H. apply H. }
  split; [|split].
  - intros [H1 H2]. apply Hm in H1.
    apply produced_by_checks in H2;
      [|intros; distinct_texts|intros; distinct_texts].
    apply in_checks_base_both in H2. tauto.
  - intros [H1 H2]. apply Hm in H1.
    apply produced_by_checks in H2;
      [|intros; distinct_texts|intros; distinct_texts].
    apply in_checks_private_key in H2. tauto.
  - rewrite check_required_app; cbn [app]. rewrite !length_app.
    unfold only_if.
    destruct (str_eq (APIKey (expanded w c0)) ""),
             (str_eq (Username (expanded w c0)) ""),
             (str_eq (ImageName (expanded w c0)) ""),
             (negb (str_eq (ImageType (expanded w c0)) IMAGE_TYPE_FLEX) &&
              negb (str_eq (ImageType (expanded w c0)) IMAGE_TYPE_STANDARD)),
             (str_eq (BaseImageId (expanded w c0)) ""),
             (str_eq (BaseOsCode (expanded w c0)) ""),
             (str_eq (SshPrivateKeyFile (expanded w c0)) "");
      simpl; lia.
Qed.

(** ** Prepare: the template loop *)

Lemma templates_NoDup : List.NoDup templates.
Proof.
  unfold templates.
  repeat (constructor; [simpl; intuition discriminate|]). constructor.
Qed.

Lemma process_key_errs w t c errs n :
  (process_key w t (c, errs) n).2 = errs ++ key_errors w t c n.
Proof.
  unfold process_key, key_errors, append_err, MultiErrorAppend.
  destruct (Process w t (deref n c)) as [s [e|]]; simpl; [reflexivity|].
  symmetry. apply app_nil_r.
Qed.

Lemma flat_map_agree {A B : Type} (f g : A -> list B) (l : list A) :
  (forall x, In x l -> f x = g x) -> flat_map f l = flat_map g l.
Proof.
  induction l as [|x r IH]; intros H; simpl; [reflexivity|].
  rewrite (H x) by (left; reflexivity).
  rewrite IH; [reflexivity|]. intros y Hy. apply H. right. exact Hy.
Qed.

(** With no key visited twice, each iteration reads the field as it was
    before the loop. *)
Lemma process_templates_flat_map w t order :
  List.NoDup order ->
  forall c errs,
    (process_templates w t order (c, errs)).2 =
    errs ++ flat_map (key_errors w t c) order.
Proof.
  unfold process_templates.
  induction 1 as [|n r Hn Hr IH]; intros c errs; cbn [fold_left flat_map].
  - symmetry. apply app_nil_r.
  - pose proof (process_key_errs w t c errs n) as He.
    pose proof (process_key_cfg w t c errs n) as Hc.
    destruct (process_key w t (c, errs) n) as [c' errs'].
    simpl in He, Hc. subst c' errs'. rewrite IH, <- app_assoc. do 2 f_equal.
    apply flat_map_agree. intros m Hm. unfold key_errors, expand_key.
    rewrite deref_assign_ne; [reflexivity|]. intros ->. contradiction.
Qed.

(** X7.  After the template loop every templated field holds the string
    [Process] returned for the value it had after the defaults, whatever
    the order in which the map was visited; the loop leaves the numeric
    settings, the user variables and the template engine alone. *)
Theorem expansion_is_fieldwise w c0 :
  (forall n,
     deref n (expanded w c0) =
     (Process w {| UserVars := PackerUserVars c0 |} (deref n (defaulted w c0))).1) /\
  InstanceCpu (expanded w c0) = InstanceCpu (defaulted w c0) /\
  InstanceMemory (expanded w c0) = InstanceMemory (defaulted w c0) /\
  InstanceNetworkSpeed (expanded w c0) = InstanceNetworkSpeed (defaulted w c0) /\
  InstanceDiskCapacity (expanded w c0) = InstanceDiskCapacity (defaulted w c0) /\
  SshPort (expanded w c0) = SshPort (defaulted w c0) /\
  PackerUserVars (expanded w c0) = PackerUserVars c0 /\
  tpl (expanded w c0) = Some {| UserVars := PackerUserVars c0 |}.
Proof.
  split.
  - intros n. rewrite expanded_eq. apply expand_all_deref.
  - rewrite expanded_eq. destruct c0. repeat split; reflexivity.
Qed.

(** X8.  The expansion errors are, up to the order of the map iteration,
    one error per field whose expansion failed, each naming its key; there
    are at most fourteen of them. *)
Theorem expansion_errors_per_key w c0 :
  Permutation (expand w c0 []).2
    (flat_map (key_errors w {| UserVars := PackerUserVars c0 |} (defaulted w c0))
              templates) /\
  (length (expand w c0 []).2 <= 14)%nat.
Proof.
  assert (HP : Permutation (expand w c0 []).2
    (flat_map (key_errors w {| UserVars := PackerUserVars c0 |} (defaulted w c0))
              templates)).
  { unfold expand. cbv zeta. rewrite process_templates_flat_map.
    - cbn [app]. apply Permutation_flat_map, range_templates_perm.
    - eapply Permutation_NoDup; [|apply templates_NoDup].
      symmetry. apply range_templates_perm. }
  split; [exact HP|].
  rewrite (Permutation_length HP).
  change 14%nat with (length templates).
  generalize templates. intros l.
  induction l as [|n r IH]; cbn [flat_map]; [reflexivity|].
  rewrite length_app. cbn [length].
  assert (length (key_errors w {| UserVars := PackerUserVars c0 |}
                    (defaulted w c0) n) <= 1)%nat.
  { unfold key_errors, append_err, MultiErrorAppend.
    destruct (Process _ _ _).2; simpl; lia. }
  lia.
Qed.

Lemma in_key_errors w t c n e :
  (Process w t (deref n c)).2 = Some e ->
  In (Errorf_processing (key_name n) e) (key_errors w t c n).
Proof. intros H. unfold key_errors. rewrite H. left. reflexivity. Qed.

Lemma In_templates n : In n templates.
Proof. destruct n; simpl; tauto. Qed.

(** X9.  A field whose expansion fails is overwritten with the string
    [Process] returned along with the error, and one error naming its key is
    produced; when that string is empty (as Packer's engine returns it) and
    the field is api_key, username or image_name, the missing-setting error
    for it is produced as well. *)
Theorem failed_expansion_is_recorded w c0 n s e :
  Process w {| UserVars := PackerUserVars c0 |} (deref n (defaulted w c0))
    = (s, Some e) ->
  deref n (expanded w c0) = s /\
  In (Errorf_processing (key_name n) e) (produced w c0) /\
  (s = "" ->
   (n = k_api_key -> In err_api_key (produced w c0)) /\
   (n = k_username -> In err_username (produced w c0)) /\
   (n = k_image_name -> In err_image_name (produced w c0))).
Proof.
  intros HP.
  assert (Hs : deref n (expanded w c0) = s).
  { rewrite expanded_eq, expand_all_deref, HP. reflexivity. }
  split; [exact Hs|]. split.
  - rewrite produced_eq, in_app_iff. left.
    assert (Hperm : Permutation (expand w c0 []).2
      (flat_map (key_errors w {| UserVars := PackerUserVars c0 |} (defaulted w c0))
                templates)).
    { unfold expand. cbv zeta. rewrite process_templates_flat_map.
      - cbn [app]. apply Permutation_flat_map, range_templates_perm.
      - eapply Permutation_NoDup; [|apply templates_NoDup].
        symmetry. apply range_templates_perm. }
    eapply Permutation_in; [symmetry; exact Hperm|].
    apply in_flat_map. exists n. split; [apply In_templates|].
    apply in_key_errors. rewrite HP. reflexivity.
  - intros ->. repeat split; intros ->;
      (apply produced_by_checks; [intros; distinct_texts|intros; distinct_texts|]).
    + apply in_checks_api_key, Hs.
    + apply in_checks_username, Hs.
    + apply in_checks_image_name, Hs.
Qed.

Lemma failed_expansion_is_recorded_witness :
  APIKey (expanded Sample.working (Sample.decoded [Sample.raw_missing_var])) = "" /\
  In (Errorf_processing "api_key" (errors_New "uknown user var: nope"))
     (produced Sample.working (Sample.decoded [Sample.raw_missing_var])) /\
  In err_api_key
     (produced Sample.working (Sample.decoded [Sample.raw_missing_var])).
Proof.
  destruct (failed_expansion_is_recorded Sample.working
              (Sample.decoded [Sample.raw_missing_var]) k_api_key ""
              (errors_New "uknown user var: nope")) as (Hs & He & Hm).
  - vm_compute. reflexivity.
  - split; [exact Hs|]. split; [exact He|].
    apply (proj1 (Hm eq_refl)). reflexivity.
Defined.

(** ** Prepare: the defaults *)



(** X11.  Credentials: the value that is expanded and checked is the one of
    the input when it is not empty and the value of the environment variable
    otherwise, so the api_key (username) error is produced exactly when the
    expansion of that value is empty. *)
Theorem Prepare_credentials_fallback w c0 :
  (APIKey c0 <> "" -> APIKey (defaulted w c0) = APIKey c0) /\
  (APIKey c0 = "" -> APIKey (defaulted w c0) = Getenv w "SOFTLAYER_API_KEY") /\
  (Username c0 <> "" -> Username (defaulted w c0) = Username c0) /\
  (Username c0 = "" -> Username (defaulted w c0) = Getenv w "SOFTLAYER_USER_NAME") /\
  (In err_api_key (produced w c0) <->
   (Process w {| UserVars := PackerUserVars c0 |} (APIKey (defaulted w c0))).1 = "") /\
  (In err_username (produced w c0) <->
   (Process w {| UserVars := PackerUserVars c0 |} (Username (defaulted w c0))).1 = "").
Proof.
  split; [|split; [|split; [|split; [|split]]]].
  - intros H. unfold defaulted. simpl. apply or_string_set, H.
  - intros H. unfold defaulted. simpl. rewrite H. reflexivity.
  - intros H. unfold defaulted. simpl. apply or_string_set, H.
  - intros H. unfold defaulted. simpl. rewrite H. reflexivity.
  - rewrite produced_by_checks; [|intros; distinct_texts|intros; distinct_texts].
    rewrite in_checks_api_key, expanded_eq.
    rewrite (expand_all_deref _ _ _ k_api_key). reflexivity.
  - rewrite produced_by_checks; [|intros; distinct_texts|intros; distinct_texts].
    rewrite in_checks_username, expanded_eq.
    rewrite (expand_all_deref _ _ _ k_username). reflexivity.
Qed.

Lemma Prepare_credentials_fallback_witness :
  APIKey (defaulted Sample.with_environment
            (Sample.decoded [Sample.raw_env_credentials])) = "env-key" /\
  Username (defaulted Sample.with_environment (Sample.decoded [Sample.raw_valid]))
    = "u".
Proof.
  split.
  - rewrite (proj1 (proj2 (Prepare_credentials_fallback Sample.with_environment
               (Sample.decoded [Sample.raw_env_credentials])))).
    + vm_compute. reflexivity.
    + vm_compute. reflexivity.
  - rewrite (proj1 (proj2 (proj2 (Prepare_credentials_fallback
               Sample.with_environment (Sample.decoded [Sample.raw_valid]))))).
    + vm_compute. reflexivity.
    + vm_compute. discriminate.
Defined.

(** X12.  The defaults never overwrite a setting that is there, and applying
    them a second time changes nothing. *)
Theorem apply_defaults_idempotent w c :
  apply_defaults w (apply_defaults w c) = apply_defaults w c /\
  (forall n, deref n c <> "" -> deref n (apply_defaults w c) = deref n c) /\
  (InstanceCpu c <> 0 -> InstanceCpu (apply_defaults w c) = InstanceCpu c) /\
  (InstanceMemory c <> 0 -> InstanceMemory (apply_defaults w c) = InstanceMemory c) /\
  (InstanceNetworkSpeed c <> 0 ->
   InstanceNetworkSpeed (apply_defaults w c) = InstanceNetworkSpeed c) /\
  (InstanceDiskCapacity c <> 0 ->
   InstanceDiskCapacity (apply_defaults w c) = InstanceDiskCapacity c) /\
  (SshPort c <> 0 -> SshPort (apply_defaults w c) = SshPort c).
Proof.
  split.
  - destruct c. unfold apply_defaults. simpl.
    rewrite !or_string_idem, !or_int_idem. reflexivity.
  - split.
    + intros n Hn. destruct c, n; simpl in *;
        try reflexivity; apply or_string_set, Hn.
    + destruct c. cbn [apply_defaults InstanceCpu InstanceMemory
        InstanceNetworkSpeed InstanceDiskCapacity SshPort]. unfold or_int.
      repeat split; intros H; apply Z.eqb_neq in H; rewrite H; reflexivity.
Qed.

Lemma append_paren_inj s1 s2 : s1 +:+ ")" = s2 +:+ ")" -> s1 = s2.
Proof.
  revert s2. induction s1 as [|a r IH]; intros [|b r']; simpl; intros H.
  - reflexivity.
  - injection H as _ H. destruct r'; discriminate H.
  - injection H as _ H. destruct r; discriminate H.
  - injection H as -> H. f_equal. apply IH, H.
Qed.

Lemma Sprintf_instance_name_inj n m :
  Sprintf_instance_name n = Sprintf_instance_name m -> n = m.
Proof.
  unfold Sprintf_instance_name. simpl. intros H.
  injection H as H. apply append_paren_inj in H.
  apply (inj pretty). exact H.
Qed.

(** X13.  Without an instance name in the input, the name chosen by the
    defaults differs as soon as the clock reading differs; with one, the
    clock plays no part. *)
Theorem default_instance_name_tracks_clock w1 w2 c0 :
  (InstanceName c0 = "" ->
   InstanceName (defaulted w1 c0) = InstanceName (defaulted w2 c0) ->
   Now_Unix w1 = Now_Unix w2) /\
  (InstanceName c0 <> "" -> InstanceName (defaulted w1 c0) = InstanceName c0).
Proof.
  split.
  - intros H0. unfold defaulted. simpl. rewrite H0. simpl.
    apply Sprintf_instance_name_inj.
  - intros H. unfold defaulted. simpl. apply or_string_set, H.
Qed.

Lemma default_instance_name_tracks_clock_witness :
  Now_Unix Sample.working = Now_Unix Sample.failing /\
  InstanceName (defaulted Sample.working (Sample.decoded [Sample.raw_named]))
    = "builder-1".
Proof.
  split.
  - apply (proj1 (default_instance_name_tracks_clock Sample.working Sample.failing
                    (Sample.decoded [Sample.raw_valid]))).
    + vm_compute. reflexivity.
    + vm_compute. reflexivity.
  - rewrite (proj2 (default_instance_name_tracks_clock Sample.working
                      Sample.working (Sample.decoded [Sample.raw_named]))).
    + vm_compute. reflexivity.
    + vm_compute. discriminate.
Defined.

(** ** Run: every outcome *)

Lemma Run_cases w self h ui hook cache :
  Run w self h ui hook cache =
    let p := (new_client self h).1 in
    let h' := (after_steps w self h ui hook).1 in
    let state := (after_steps w self h ui hook).2 in
    let self' := {| cfg := cfg self;
                    runner := Some {| Steps := build_steps (cfg self) |} |} in
    match state !! "error" with
    | Some rawErr =>
        match assert_error rawErr with
        | Returned e => (self', h', [], Returned (None, Some e))
        | Panicked msg => (self', h', [], Panicked msg)
        end
    | None =>
        match state !! "image_id" with
        | None =>
            (self', h', [LogPrintln "Failed to find image_id in state. Bug?"],
             Returned (None, None))
        | Some _ =>
            match assert_string (Get state "image_id") with
            | Returned id =>
                (self', h', [],
                 Returned (Some {| imageName := ImageName (cfg self);
                                   imageId := id;
                                   datacenterName := DatacenterName (cfg self);
                                   client := p |}, None))
            | Panicked msg => (self', h', [], Panicked msg)
            end
        end
    end.
Proof. apply Run_unfold, surjective_pairing. Qed.

Ltac inversion_goal :=
  match goal with
  | |- forall a e, _ <> _ => intros ? ? H; discriminate H
  | |- forall a err, _ = _ -> _ /\ _ =>
      intros ? ? H;
      first [discriminate H | injection H as ? ?; subst; split; reflexivity]
  | |- forall a e, _ = _ -> _ = _ =>
      intros ? ? H;
      first [discriminate H | injection H as ? ?; subst; reflexivity]
  | |- _ <-> _ =>
      split;
      [ intros H; first [exfalso; apply H; reflexivity | split; reflexivity]
      | first [ intros [H _]; discriminate H
              | intros [_ H]; discriminate H
              | intros _; discriminate ] ]
  end.

(** X14.  [Run] never returns an artifact together with an error.  An
    artifact comes back only when the state bag has no "error" entry and a
    string under "image_id", which is the artifact's image id; an error
    comes back only when it is the error stored under "error"; and the
    anomaly is logged exactly when both entries are absent. *)
Theorem Run_result_inversion w self h ui hook cache h' state :
  after_steps w self h ui hook = (h', state) ->
  (forall a e, Run_result w self h ui hook cache <> Returned (Some a, Some e)) /\
  (forall a err,
     Run_result w self h ui hook cache = Returned (Some a, err) ->
     state !! "error" = None /\
     state !! "image_id" = Some (VString (imageId a))) /\
  (forall a e,
     Run_result w self h ui hook cache = Returned (a, Some e) ->
     state !! "error" = Some (VError e)) /\
  (Run_log w self h ui hook cache <> [] <->
   state !! "error" = None /\ state !! "image_id" = None).
Proof.
  intros Hsteps. unfold Run_result, Run_log.
  rewrite (Run_unfold _ _ _ _ _ _ _ _ Hsteps). cbv zeta. unfold Get.
  destruct (state !! "error") as [v|] eqn:Herr.
  - destruct v; simpl; (split; [|split; [|split]]); inversion_goal.
  - destruct (state !! "image_id") as [v|] eqn:Hid.
    + destruct v; simpl; (split; [|split; [|split]]); inversion_goal.
    + simpl. (split; [|split; [|split]]); inversion_goal.
Qed.

Lemma Run_result_inversion_witness :
  Run_result Sample.working Sample.prepared ∅ Sample.no_ui Sample.no_hook
    Sample.no_cache <>
  Returned (Some {| imageName := "img1"; imageId := "img-42";
                    datacenterName := "ams01"; client := 1%positive |},
            Some (errors_New "late")).
Proof.
  apply (proj1 (Run_result_inversion Sample.working Sample.prepared ∅
                  Sample.no_ui Sample.no_hook Sample.no_cache
                  (Sample.final_heap Sample.working Sample.prepared)
                  (Sample.final_state Sample.working Sample.prepared)
                  (surjective_pairing _))).
Defined.

(** X15.  [Run] panics exactly when a type assertion fails: the "error"
    entry holds something that is not an error, or there is no "error"
    entry and the "image_id" entry holds something that is not a string. *)
Theorem Run_panics_iff w self h ui hook cache h' state :
  after_steps w self h ui hook = (h', state) ->
  (exists msg, Run_result w self h ui hook cache = Panicked msg) <->
  (exists v, state !! "error" = Some v /\ forall e, v <> VError e) \/
  (state !! "error" = None /\
   exists v, state !! "image_id" = Some v /\ forall id, v <> VString id).
Proof.
  intros Hsteps. unfold Run_result.
  rewrite (Run_unfold _ _ _ _ _ _ _ _ Hsteps). cbv zeta. unfold Get.
  destruct (state !! "error") as [v|] eqn:Herr.
  - split.
    + intros [msg H]. left. exists v. split; [reflexivity|].
      intros e ->. simpl in H. discriminate H.
    + intros [(v' & [= <-] & Hv)|[H _]]; [|discriminate H].
      destruct v; simpl; eauto. exfalso. eapply Hv. reflexivity.
  - destruct (state !! "image_id") as [v|] eqn:Hid.
    + split.
      * intros [msg H]. right. split; [reflexivity|]. exists v.
        split; [reflexivity|]. intros id ->. simpl in H. discriminate H.
      * intros [(v' & H & _)|(_ & v' & [= <-] & Hv)]; [discriminate H|].
        destruct v; simpl; eauto. exfalso. eapply Hv. reflexivity.
    + split.
      * intros [msg H]. discriminate H.
      * intros [(v' & H & _)|(_ & v' & H & _)]; discriminate H.
Qed.

Lemma Run_panics_iff_witness :
  exists msg,
    Run_result Sample.untyped Sample.fresh_builder ∅ Sample.no_ui Sample.no_hook
      Sample.no_cache = Panicked msg.
Proof.
  apply (Run_panics_iff Sample.untyped Sample.fresh_builder ∅ Sample.no_ui
           Sample.no_hook Sample.no_cache
           (Sample.final_heap Sample.untyped Sample.fresh_builder)
           (Sample.final_state Sample.untyped Sample.fresh_builder)).
  - apply surjective_pairing.
  - left. exists (VString "boom"). split; [vm_compute; reflexivity|].
    intros e. discriminate.
Defined.

(** X16.  The builder itself puts neither "error" nor "image_id" in the
    state bag: when the steps leave these two entries as they found them,
    the run ends as the logged anomaly, with a nil artifact and a nil
    error. *)
Theorem Run_needs_the_steps w self h ui hook cache :
  (forall st k,
     k = "error" \/ k = "image_id" ->
     (BasicRunner_Run w {| Steps := build_steps (cfg self) |} st).2 !! k
       = st.2 !! k) ->
  Run_result w self h ui hook cache = Returned (None, None) /\
  Run_log w self h ui hook cache =
    [LogPrintln "Failed to find image_id in state. Bug?"].
Proof.
  intros Hkeep. unfold Run_result, Run_log. rewrite Run_cases. cbv zeta.
  assert (He : (after_steps w self h ui hook).2 !! "error" = None).
  { unfold after_steps. destruct (new_client self h) as [p h1].
    rewrite Hkeep by (left; reflexivity). reflexivity. }
  assert (Hi : (after_steps w self h ui hook).2 !! "image_id" = None).
  { unfold after_steps. destruct (new_client self h) as [p h1].
    rewrite Hkeep by (right; reflexivity). reflexivity. }
  rewrite He, Hi. split; reflexivity.
Qed.

Lemma Run_needs_the_steps_witness :
  Run_result Sample.idle Sample.prepared ∅ Sample.no_ui Sample.no_hook
    Sample.no_cache = Returned (None, None).
Proof.
  apply (Run_needs_the_steps Sample.idle Sample.prepared ∅ Sample.no_ui
           Sample.no_hook Sample.no_cache).
  intros [h bag] k _. reflexivity.
Defined.

(** ** Run, then Cancel; Prepare, then Run *)

(** X17.  Whatever the outcome of [Run] (a panic included), the builder
    keeps its configuration and now holds the runner of the six steps, in
    order, built from that configuration; a [Cancel] after it logs, invokes
    that runner's Cancel and prints, in this order. *)
Theorem Cancel_after_Run_reaches_runner w self h ui hook cache :
  cfg (Run_builder w self h ui hook cache) = cfg self /\
  runner (Run_builder w self h ui hook cache) =
    Some {| Steps := [stepCreateSshKey (SshPrivateKeyFile (cfg self));
                      stepCreateInstance; stepWaitforInstance;
                      StepConnectSSH (SshTimeout (cfg self)); StepProvision;
                      stepCaptureImage] |} /\
  (Cancel (Run_builder w self h ui hook cache)).2 =
    Returned [LogPrintln "Cancelling the step runner...";
              RunnerCancel {| Steps := build_steps (cfg self) |};
              FmtPrintln "Cancelling the builder"].
Proof.
  assert (H : Run_builder w self h ui hook cache =
              {| cfg := cfg self;
                 runner := Some {| Steps := build_steps (cfg self) |} |}).
  { unfold Run_builder. rewrite Run_cases. cbv zeta.
    destruct ((after_steps w self h ui hook).2 !! "error") as [v|].
    - destruct (assert_error v); reflexivity.
    - destruct ((after_steps w self h ui hook).2 !! "image_id").
      + destruct (assert_string _); reflexivity.
      + reflexivity. }
  rewrite H. repeat split.
Qed.

(** X18.  [Run] does not ask whether [Prepare] returned an error.  After a
    [Prepare] that got past decoding, the key step is given the expanded
    private key file, the connect step the duration parsed from the expanded
    ssh_timeout, and a run that ends with an image id returns an artifact
    named by the expanded image name and datacenter name. *)
Theorem Prepare_then_Run w self raws c0 md t h ui hook cache h' state id :
  DecodeConfig w (cfg self) raws = (c0, Ok md) ->
  NewConfigTemplate w = Ok t ->
  after_steps w (Prepare w self raws).1.1 h ui hook = (h', state) ->
  state !! "error" = None ->
  state !! "image_id" = Some (VString id) ->
  build_steps (cfg (Prepare w self raws).1.1) =
    [stepCreateSshKey (SshPrivateKeyFile (expanded w c0));
     stepCreateInstance; stepWaitforInstance;
     StepConnectSSH (ParseDuration w (RawSshTimeout (expanded w c0))).1;
     StepProvision; stepCaptureImage] /\
  Run_result w (Prepare w self raws).1.1 h ui hook cache =
    Returned (Some {| imageName := ImageName (expanded w c0);
                      imageId := id;
                      datacenterName := DatacenterName (expanded w c0);
                      client := (new_client (Prepare w self raws).1.1 h).1 |},
              None).
Proof.
  intros Hd Ht Hsteps Herr Hid.
  assert (Hc : cfg (Prepare w self raws).1.1 =
               set_timeouts (ParseDuration w (RawSshTimeout (expanded w c0))).1
                            (ParseDuration w (RawStateTimeout (expanded w c0))).1
                            (expanded w c0)).
  { pose proof (Prepare_config_eq w self raws) as H.
    unfold Prepare_config in H. rewrite H, Hd, Ht. reflexivity. }
  split.
  - rewrite Hc. reflexivity.
  - unfold Run_result. rewrite (Run_unfold _ _ _ _ _ _ _ _ Hsteps). cbv zeta.
    rewrite Herr, Hid. unfold Get. rewrite Hid. simpl. rewrite Hc. reflexivity.
Qed.

Lemma Prepare_then_Run_witness :
  Run_result Sample.working
    (Prepare Sample.working Sample.fresh_builder [Sample.raw_valid]).1.1
    ∅ Sample.no_ui Sample.no_hook Sample.no_cache =
  Returned (Some {| imageName := "img1"; imageId := "img-42";
                    datacenterName := "ams01"; client := 1%positive |}, None).
Proof.
  refine (eq_trans (proj2 (Prepare_then_Run Sample.working Sample.fresh_builder
            [Sample.raw_valid] (Sample.decoded [Sample.raw_valid])
            (Sample.metadata_of [Sample.raw_valid]) {| UserVars := ∅ |}
            ∅ Sample.no_ui Sample.no_hook Sample.no_cache
            (Sample.final_heap Sample.working Sample.prepared)
            (Sample.final_state Sample.working Sample.prepared)
            "img-42" _ _ _ _ _)) _).
  - vm_compute. reflexivity.
  - reflexivity.
  - apply surjective_pairing.
  - vm_compute. reflexivity.
  - vm_compute. reflexivity.
  - vm_compute. reflexivity.
Defined.
